(** * User management of the acquisitions API

    A shallow embedding of the profile service
    ([src/services/users.service.js]: [getAllUsers], [getUserById],
    [updateUser], [deleteUser]) and of its request handlers
    ([src/controllers/users.controller.js]: [fetchAllUsers],
    [fetchUserById], [updateUserById], [deleteUserById]).

    The relational table is a list of rows threaded through a state and
    exception monad; JavaScript objects returned by the ORM are
    association lists from keys to values.  Logging has no effect on the
    results and is left out. *)

From Stdlib Require Import ZArith List String Bool Lia Permutation.
Import ListNotations.
Open Scope string_scope.
Open Scope Z_scope.

(** ** JavaScript values *)

(** [new Date()] is a number of milliseconds. *)
Definition Date := Z.

Inductive Value : Type :=
| VNum (n : Z)
| VStr (s : string)
| VDate (d : Date).

(** A plain object: keys in insertion order. *)
Definition Obj := list (string * Value).

Fixpoint get (k : string) (o : Obj) : option Value :=
  match o with
  | [] => None
  | (k', v) :: o' => if k' =? k then Some v else get k o'
  end%string.

Definition keys (o : Obj) : list string := map fst o.

(** Truthiness of an optional string property: [undefined] and the
    empty string are falsy. *)
Definition truthy (p : option string) : bool :=
  match p with
  | Some s => negb (s =? "")%string
  | None => false
  end.

(** [const [x] = xs]: the first element, [undefined] when there is none. *)
Definition first {A : Type} (xs : list A) : option A :=
  match xs with
  | [] => None
  | x :: _ => Some x
  end.

(** ** Exceptions *)

Record Error : Type := mkError { message : string }.

Inductive Result (A : Type) : Type :=
| Ok (a : A)
| Throw (e : Error).
Arguments Ok {A} a.
Arguments Throw {A} e.

(** ** The users table *)

Record UserRow : Type := mkUserRow {
  u_id : Z;
  u_name : string;
  u_email : string;
  u_password : string;
  u_role : string;
  u_created_at : Date;
  u_updated_at : Date
}.

Definition Table := list UserRow.

(** The columns of the table, as the ORM names them ([users.id], ...). *)
Module users.
Inductive column : Type :=
| id | name | email | password | role | created_at | updated_at.

Definition value (c : column) (r : UserRow) : Value :=
  match c with
  | id => VNum (u_id r)
  | name => VStr (u_name r)
  | email => VStr (u_email r)
  | password => VStr (u_password r)
  | role => VStr (u_role r)
  | created_at => VDate (u_created_at r)
  | updated_at => VDate (u_updated_at r)
  end.

Definition is_password (c : column) : bool :=
  match c with
  | password => true
  | _ => false
  end.
End users.

(** The argument of [.select({...})] and [.returning({...})]. *)
Definition Selection := list (string * users.column).

Definition project (sel : Selection) (r : UserRow) : Obj :=
  map (fun kc => (fst kc, users.value (snd kc) r)) sel.

(** [eq(users.id, id)] *)
Definition eq_id (i : Z) (r : UserRow) : bool := u_id r =? i.

(** The argument of [.set(...)]: the sparse update plus the timestamp. *)
Record UpdateData : Type := mkUpdateData {
  set_name : option string;
  set_email : option string;
  set_password : option string;
  set_role : option string;
  set_updated_at : option Date
}.

Definition or_keep {A : Type} (new : option A) (old : A) : A :=
  match new with
  | Some v => v
  | None => old
  end.

Definition apply_set (d : UpdateData) (r : UserRow) : UserRow :=
  {| u_id := u_id r;
     u_name := or_keep (set_name d) (u_name r);
     u_email := or_keep (set_email d) (u_email r);
     u_password := or_keep (set_password d) (u_password r);
     u_role := or_keep (set_role d) (u_role r);
     u_created_at := u_created_at r;
     u_updated_at := or_keep (set_updated_at d) (u_updated_at r) |}.

Fixpoint distinct (l : list string) : bool :=
  match l with
  | [] => true
  | x :: xs => negb (existsb (String.eqb x) xs) && distinct xs
  end.

(** Modelled from the spec: the model file [src/models/user.model.js] is
    missing; the spec makes [email] unique across all users, enforced by a
    store constraint. *)
Definition emails_unique (t : Table) : bool := distinct (map u_email t).

(** ** State and exception monad over the table *)

Definition M (A : Type) : Type := Table -> Result A * Table.

Definition ret {A : Type} (a : A) : M A := fun t => (Ok a, t).

Definition throw {A : Type} (e : Error) : M A := fun t => (Throw e, t).

Definition bind {A B : Type} (m : M A) (f : A -> M B) : M B :=
  fun t =>
    match m t with
    | (Ok a, t') => f a t'
    | (Throw e, t') => (Throw e, t')
    end.

Definition try_catch {A : Type} (m : M A) (handler : Error -> M A) : M A :=
  fun t =>
    match m t with
    | (Ok a, t') => (Ok a, t')
    | (Throw e, t') => handler e t'
    end.

Definition lift {A : Type} (r : Result A) : M A := fun t => (r, t).

Notation "x <- m ;; k" := (bind m (fun x => k))
  (at level 61, m at next level, right associativity).

(** ** Requests and responses *)

(** The sparse update: the data of a successful
    [updateUserSchema.safeParse(req.body)].

    Modelled from the spec: [src/validations/users.validation.js] is
    missing; the spec gives the keys {name, email, password, role}. *)
Record Updates : Type := mkUpdates {
  upd_name : option string;
  upd_email : option string;
  upd_password : option string;
  upd_role : option string
}.

Definition no_updates : Updates :=
  {| upd_name := None; upd_email := None;
     upd_password := None; upd_role := None |}.

(** Modelled from the spec: a role is one of the enumerated values
    [user] and [admin]; a validated payload carries no other. *)
Definition role_valid (u : Updates) : bool :=
  match upd_role u with
  | Some r => (r =? "user")%string || (r =? "admin")%string
  | None => true
  end.

(** [req.user], the claims of the verified session token. *)
Record Actor : Type := mkActor {
  actor_id : Z;
  actor_email : string;
  actor_role : string
}.

(** Result of [schema.safeParse(...)]; on failure it carries the output of
    [formatValidationError]. *)
Inductive SafeParse (A : Type) : Type :=
| ParseSuccess (data : A)
| ParseFailure (details : string).
Arguments ParseSuccess {A} data.
Arguments ParseFailure {A} details.

Record Request : Type := mkRequest {
  user : Actor;
  params : SafeParse Z;        (* userIdSchema.safeParse(req.params) *)
  body : SafeParse Updates     (* updateUserSchema.safeParse(req.body) *)
}.

Inductive Json : Type :=
| JStr (s : string)
| JObj (o : Obj)
| JArr (os : list Obj)
| JUndefined.

Definition of_option (o : option Obj) : Json :=
  match o with
  | Some x => JObj x
  | None => JUndefined
  end.

(** What a handler does with [res] and [next]. *)
Inductive Outcome : Type :=
| Respond (status : Z) (json : list (string * Json))
| Next (e : Error).

Definition status_of (o : Outcome) : option Z :=
  match o with
  | Respond s _ => Some s
  | Next _ => None
  end.

Definition not_found : Error := mkError "User not found".

Definition run {A : Type} (m : M A) (t : Table) : Result A * Table := m t.

(** The HTTP status a handler answered with, if it answered. *)
Definition status (r : Result Outcome * Table) : option Z :=
  match fst r with
  | Ok o => status_of o
  | Throw _ => None
  end.

(** ** A small instance *)

Module Sample.
(** A stand-in for the salted hash. *)
Definition hash (p : string) : Result string := Ok ("$2b$10$" ++ p).

(** Message of the PostgreSQL driver for a violated unique constraint. *)
Definition violation : Error :=
  mkError "duplicate key value violates unique constraint".

Definition alice : UserRow :=
  mkUserRow 1 "Alice" "alice@example.com" "$2b$10$a" "admin" 100 100.
Definition bob : UserRow :=
  mkUserRow 2 "Bob" "bob@example.com" "$2b$10$b" "user" 200 250.
Definition eve : UserRow :=
  mkUserRow 5 "Eve" "eve@example.com" "$2b$10$e" "user" 300 300.

Definition table : Table := [alice; bob; eve].

Definition as_alice : Actor := mkActor 1 "alice@example.com" "admin".
Definition as_eve : Actor := mkActor 5 "eve@example.com" "user".

Definition rename (n : string) : Updates :=
  {| upd_name := Some n; upd_email := None;
     upd_password := None; upd_role := None |}.
Definition promote : Updates :=
  {| upd_name := Some "Eve A."; upd_email := None;
     upd_password := None; upd_role := Some "admin" |}.
Definition take_email (e : string) : Updates :=
  {| upd_name := None; upd_email := Some e;
     upd_password := None; upd_role := None |}.

Definition request (a : Actor) (id : Z) (u : Updates) : Request :=
  {| user := a; params := ParseSuccess id; body := ParseSuccess u |}.
End Sample.

(** A hasher that always throws, and requests that fail validation. *)
Module Faulty.
Definition hash (p : string) : Result string :=
  Throw (mkError "Error hashing").

Definition new_password (p : string) : Updates :=
  {| upd_name := Some "Bobby"; upd_email := None;
     upd_password := Some p; upd_role := None |}.

Definition bad_id (a : Actor) (details : string) : Request :=
  {| user := a; params := ParseFailure details;
     body := ParseSuccess no_updates |}.
End Faulty.

(** ** Store access (drizzle queries) *)

Section Service.

(** [hashPassword] of [src/services/auth.service.js] and the exception of
    the database driver for a violated unique constraint; neither file is
    part of the sources at hand. *)
Variable hashPassword : string -> Result string.
Variable unique_violation : Error.

(** [db.select(sel).from(users).where(w)] *)
Definition db_select (sel : Selection) (w : UserRow -> bool) : M (list Obj) :=
  fun t => (Ok (map (project sel) (filter w t)), t).

(** [.limit(n)] *)
Definition limit (n : nat) (q : M (list Obj)) : M (list Obj) :=
  rows <- q ;; ret (firstn n rows).

(** [db.update(users).set(d).where(w).returning(sel)] *)
Definition db_update (d : UpdateData) (w : UserRow -> bool)
    (sel : Selection) : M (list Obj) :=
  fun t =>
    let t' := map (fun r => if w r then apply_set d r else r) t in
    if emails_unique t'
    then (Ok (map (project sel) (filter w t')), t')
    else (Throw unique_violation, t).

(** [db.delete(users).where(w)] *)
Definition db_delete (w : UserRow -> bool) : M unit :=
  fun t => (Ok tt, filter (fun r => negb (w r)) t).

(** ** The service *)

Definition public_fields : Selection :=
  [ ("id", users.id); ("name", users.name); ("email", users.email);
    ("role", users.role); ("created_at", users.created_at);
    ("updated_at", users.updated_at) ].

Definition id_email : Selection :=
  [ ("id", users.id); ("email", users.email) ].

Definition getAllUsers : M (list Obj) :=
  try_catch
    (allUsers <- db_select public_fields (fun _ => true) ;;
     ret allUsers)
    (fun _ => throw (mkError "Error fetching users")).

Definition getUserById (id : Z) : M Obj :=
  try_catch
    (rows <- limit 1 (db_select public_fields (eq_id id)) ;;
     match first rows with
     | None => throw (mkError "User not found")
     | Some user => ret user
     end)
    (fun e => throw e).

Definition updateUser (now : Date) (id : Z) (updates : Updates)
    : M (option Obj) :=
  try_catch
    (rows <- limit 1 (db_select id_email (eq_id id)) ;;
     match first rows with
     | None => throw (mkError "User not found")
     | Some existingUser =>
         hashed <-
           match upd_password updates with
           | Some p =>
               if truthy (Some p)
               then h <- lift (hashPassword p) ;; ret (Some h)
               else ret (Some p)
           | None => ret None
           end ;;
         let updateData :=
           {| set_name := upd_name updates;
              set_email := upd_email updates;
              set_password := hashed;
              set_role := upd_role updates;
              set_updated_at := Some now |} in
         updated <- db_update updateData (eq_id id) public_fields ;;
         ret (first updated)
     end)
    (fun e => throw e).

Definition deleteUser (id : Z) : M (list (string * Json)) :=
  try_catch
    (rows <- limit 1 (db_select id_email (eq_id id)) ;;
     match first rows with
     | None => throw (mkError "User not found")
     | Some existingUser =>
         _ <- db_delete (eq_id id) ;;
         ret [("message", JStr "User deleted successfully")]
     end)
    (fun e => throw e).

(** ** The handlers *)

Definition validation_failed (details : string) : Outcome :=
  Respond 400 [("error", JStr "Validation failed");
               ("details", JStr details)].

Definition access_denied (msg : string) : Outcome :=
  Respond 403 [("error", JStr "Access denied"); ("message", JStr msg)].

(** [role !== 'admin'] *)
Definition not_admin (role : string) : bool := negb (role =? "admin")%string.

Definition fetchAllUsers (req : Request) : M Outcome :=
  try_catch
    (if not_admin (actor_role (user req))
     then ret (access_denied "Only administrators can view all users")
     else
       users <- getAllUsers ;;
       ret (Respond 200 [("message", JStr "Users retrieved successfully");
                         ("users", JArr users)]))
    (fun e => ret (Next e)).

Definition fetch_catch (e : Error) : Outcome :=
  if (message e =? "User not found")%string
  then Respond 404 [("error", JStr "User not found")]
  else Next e.

Definition fetchUserById (req : Request) : M Outcome :=
  try_catch
    (match params req with
     | ParseFailure details => ret (validation_failed details)
     | ParseSuccess id =>
         if not_admin (actor_role (user req)) && negb (actor_id (user req) =? id)
         then ret (access_denied "You can only view your own profile")
         else
           user <- getUserById id ;;
           ret (Respond 200 [("message", JStr "User retrieved successfully");
                             ("user", JObj user)])
     end)
    (fun e => ret (fetch_catch e)).

Definition update_catch (e : Error) : Outcome :=
  if (message e =? "User not found")%string
  then Respond 404 [("error", JStr "User not found")]
  else if (message e =? "User with this email already exists")%string
  then Respond 409 [("error", JStr "Email already exists")]
  else Next e.

Definition updateUserById (now : Date) (req : Request) : M Outcome :=
  try_catch
    (match params req with
     | ParseFailure details => ret (validation_failed details)
     | ParseSuccess id =>
         match body req with
         | ParseFailure details => ret (validation_failed details)
         | ParseSuccess updates =>
             if not_admin (actor_role (user req)) && negb (actor_id (user req) =? id)
             then ret (access_denied "You can only update your own profile")
             else if truthy (upd_role updates) && not_admin (actor_role (user req))
             then ret (access_denied
                         "Only administrators can change user roles")
             else
               updatedUser <- updateUser now id updates ;;
               ret (Respond 200 [("message", JStr "User updated successfully");
                                 ("user", of_option updatedUser)])
         end
     end)
    (fun e => ret (update_catch e)).

Definition delete_catch (e : Error) : Outcome :=
  if (message e =? "User not found")%string
  then Respond 404 [("error", JStr "User not found")]
  else Next e.

Definition deleteUserById (req : Request) : M Outcome :=
  try_catch
    (match params req with
     | ParseFailure details => ret (validation_failed details)
     | ParseSuccess id =>
         if actor_id (user req) =? id
         then ret (Respond 400 [("error", JStr "Invalid operation");
                                ("message",
                                 JStr "You cannot delete your own account")])
         else
           _ <- deleteUser id ;;
           ret (Respond 200 [("message", JStr "User deleted successfully")])
     end)
    (fun e => ret (delete_catch e)).

(** ** Vocabulary of the statements *)

(** The keys of every user object the service hands out. *)
Definition public_keys : list string :=
  ["id"; "name"; "email"; "role"; "created_at"; "updated_at"].

(** The [password] property of [updateData] after the re-hash. *)
Definition stored_password (u : Updates) : Result (option string) :=
  match upd_password u with
  | Some p =>
      if truthy (Some p)
      then match hashPassword p with
           | Ok h => Ok (Some h)
           | Throw e => Throw e
           end
      else Ok (Some p)
  | None => Ok None
  end.

(** [r'] is [r] after the sparse update [u] at time [now]. *)
Definition sparse_applied (now : Date) (u : Updates) (r r' : UserRow) : Prop :=
  u_id r' = u_id r
  /\ u_created_at r' = u_created_at r
  /\ u_updated_at r' = now
  /\ u_name r' = or_keep (upd_name u) (u_name r)
  /\ u_email r' = or_keep (upd_email u) (u_email r)
  /\ u_role r' = or_keep (upd_role u) (u_role r)
  /\ match upd_password u with
     | None => u_password r' = u_password r
     | Some p =>
         if (p =? "")%string
         then u_password r' = p
         else hashPassword p = Ok (u_password r')
     end.

(** [r] with a new [updated_at] and nothing else changed. *)
Definition touch (now : Date) (r : UserRow) : UserRow :=
  {| u_id := u_id r;
     u_name := u_name r;
     u_email := u_email r;
     u_password := u_password r;
     u_role := u_role r;
     u_created_at := u_created_at r;
     u_updated_at := now |}.

(** * Properties *)

(** ** Queries by id *)

Lemma first_limit_select (sel : Selection) (w : UserRow -> bool) (t : Table) :
  run (limit 1 (db_select sel w)) t
  = (Ok (match first (filter w t) with
         | Some r => [project sel r]
         | None => []
         end), t).
Proof.
  unfold run, limit, bind, db_select, ret.
  destruct (filter w t) as [|r rest]; reflexivity.
Qed.

Lemma filter_absent (i : Z) (t : Table) :
  (forall r, In r t -> u_id r <> i) -> filter (eq_id i) t = [].
Proof.
  induction t as [|r t IH]; intros H; simpl; [reflexivity|].
  unfold eq_id at 1.
  destruct (Z.eqb_spec (u_id r) i) as [E|E].
  - exfalso. apply (H r); [left; reflexivity | exact E].
  - apply IH. intros r' Hr'. apply H. right. exact Hr'.
Qed.

Lemma filter_present (i : Z) (t : Table) :
  (exists r, In r t /\ u_id r = i) ->
  exists r0, first (filter (eq_id i) t) = Some r0 /\ In r0 t /\ u_id r0 = i.
Proof.
  intros [r [Hin Hid]].
  assert (Hf : In r (filter (eq_id i) t)).
  { apply filter_In. split; [exact Hin|]. unfold eq_id. now apply Z.eqb_eq. }
  destruct (filter (eq_id i) t) as [|r0 rest] eqn:E; [contradiction|].
  exists r0. split; [reflexivity|].
  assert (H0 : In r0 (filter (eq_id i) t)) by (rewrite E; left; reflexivity).
  apply filter_In in H0. destruct H0 as [H1 H2].
  split; [exact H1|]. unfold eq_id in H2. now apply Z.eqb_eq.
Qed.

(** ** The service on an absent id *)

Lemma updateUser_absent (now : Date) (i : Z) (u : Updates) (t : Table) :
  (forall r, In r t -> u_id r <> i) ->
  run (updateUser now i u) t = (Throw not_found, t).
Proof.
  intros H. unfold run, updateUser, try_catch, bind.
  pose proof (first_limit_select id_email (eq_id i) t) as L.
  unfold run in L. rewrite L. rewrite (filter_absent i t H). reflexivity.
Qed.

Lemma deleteUser_absent (i : Z) (t : Table) :
  (forall r, In r t -> u_id r <> i) ->
  run (deleteUser i) t = (Throw not_found, t).
Proof.
  intros H. unfold run, deleteUser, try_catch, bind.
  pose proof (first_limit_select id_email (eq_id i) t) as L.
  unfold run in L. rewrite L. rewrite (filter_absent i t H). reflexivity.
Qed.

(** C8: on an id that no row carries, [updateUser] and [deleteUser] both
    throw [User not found] and leave the table as it was; the update and
    delete handlers, once their guards let the request through, answer 404
    with the table likewise unchanged. *)
Theorem absent_id_not_found (now : Date) (i : Z) (u : Updates) (t : Table)
    (req : Request) :
  (forall r, In r t -> u_id r <> i) ->
  params req = ParseSuccess i ->
  body req = ParseSuccess u ->
  (run (updateUser now i u) t = (Throw not_found, t)
   /\ message not_found = "User not found")
  /\ run (deleteUser i) t = (Throw not_found, t)
  /\ (actor_role (user req) = "admin"
      \/ (actor_id (user req) = i /\ upd_role u = None) ->
      run (updateUserById now req) t
      = (Ok (Respond 404 [("error", JStr "User not found")]), t))
  /\ (actor_id (user req) <> i ->
      run (deleteUserById req) t
      = (Ok (Respond 404 [("error", JStr "User not found")]), t)).
Proof.
  intros Habs Hp Hb.
  pose proof (updateUser_absent now i u t Habs) as HU.
  pose proof (deleteUser_absent i t Habs) as HD.
  repeat split; try assumption.
  - intros Hguard.
    unfold run, updateUserById, try_catch. rewrite Hp, Hb.
    assert (G1 : not_admin (actor_role (user req))
                 && negb (actor_id (user req) =? i) = false).
    { destruct Hguard as [Ha | [Hs _]].
      - unfold not_admin. rewrite Ha. reflexivity.
      - rewrite Hs, Z.eqb_refl. apply andb_false_r. }
    assert (G2 : truthy (upd_role u)
                 && not_admin (actor_role (user req)) = false).
    { destruct Hguard as [Ha | [_ Hr]].
      - unfold not_admin. rewrite Ha. apply andb_false_r.
      - rewrite Hr. reflexivity. }
    rewrite G1, G2. unfold bind. unfold run in HU. rewrite HU. reflexivity.
  - intros Hne.
    unfold run, deleteUserById, try_catch. rewrite Hp.
    apply Z.eqb_neq in Hne. rewrite Hne.
    unfold bind. unfold run in HD. rewrite HD. reflexivity.
Qed.

(** ** Authorization guards of the handlers *)

Lemma not_admin_true (role : string) :
  not_admin role = true <-> role <> "admin".
Proof.
  unfold not_admin. rewrite negb_true_iff. split.
  - intros H E. apply String.eqb_neq in H. contradiction.
  - intros H. now apply String.eqb_neq.
Qed.

Lemma view_guard (a : Actor) (i : Z) :
  not_admin (actor_role a) && negb (actor_id a =? i) = true
  <-> ~ (actor_id a = i \/ actor_role a = "admin").
Proof.
  rewrite andb_true_iff, not_admin_true, negb_true_iff, Z.eqb_neq. tauto.
Qed.

Lemma view_guard_false (a : Actor) (i : Z) :
  not_admin (actor_role a) && negb (actor_id a =? i) = false
  <-> actor_id a = i \/ actor_role a = "admin".
Proof.
  destruct (not_admin (actor_role a) && negb (actor_id a =? i)) eqn:G.
  - apply view_guard in G. split; [discriminate | intros H; contradiction].
  - split; [intros _ | reflexivity].
    destruct (Z.eq_dec (actor_id a) i) as [E|E]; [left; exact E|].
    destruct (string_dec (actor_role a) "admin") as [R|R]; [right; exact R|].
    exfalso. assert (G' : not_admin (actor_role a)
                          && negb (actor_id a =? i) = true).
    { apply view_guard. tauto. }
    congruence.
Qed.

Lemma role_valid_truthy (u : Updates) :
  upd_role u <> None -> role_valid u = true -> truthy (upd_role u) = true.
Proof.
  unfold role_valid, truthy. destruct (upd_role u) as [r|]; [|congruence].
  intros _ H. apply orb_true_iff in H.
  destruct H as [H|H]; apply String.eqb_eq in H; subst r; reflexivity.
Qed.

(** C5: whatever the actor's role, a delete request whose target is the
    actor's own id is answered 400 and the table, the actor's row included,
    stays as it was. *)
Theorem self_delete_rejected (req : Request) (i : Z) (t : Table) :
  params req = ParseSuccess i ->
  actor_id (user req) = i ->
  run (deleteUserById req) t
  = (Ok (Respond 400 [("error", JStr "Invalid operation");
                      ("message", JStr "You cannot delete your own account")]),
     t).
Proof.
  intros Hp Hs. unfold run, deleteUserById, try_catch.
  rewrite Hp, Hs, Z.eqb_refl. reflexivity.
Qed.

(** C3: an update whose validated payload carries a role, sent by an actor
    whose role is not admin, is answered 403 and the table is left exactly
    as it was: no field of the payload is written and no [updated_at] is
    refreshed.  The refusal names the role rule when the actor is the
    target and the ownership rule otherwise. *)
Theorem role_change_by_non_admin_rejected (now : Date) (req : Request)
    (i : Z) (u : Updates) (t : Table) :
  params req = ParseSuccess i ->
  body req = ParseSuccess u ->
  upd_role u <> None ->
  role_valid u = true ->
  actor_role (user req) <> "admin" ->
  run (updateUserById now req) t
  = (Ok (Respond 403
           [("error", JStr "Access denied");
            ("message",
             JStr (if actor_id (user req) =? i
                   then "Only administrators can change user roles"
                   else "You can only update your own profile"))]), t).
Proof.
  intros Hp Hb Hr Hv Ha.
  unfold run, updateUserById, try_catch. rewrite Hp, Hb.
  apply not_admin_true in Ha. rewrite Ha.
  rewrite (role_valid_truthy u Hr Hv). simpl.
  destruct (actor_id (user req) =? i); reflexivity.
Qed.

(** Outcomes of the service never turn into a 403. *)
Lemma fetch_tail_not_403 (i : Z) (t : Table) :
  status
    (try_catch
       (user <- getUserById i ;;
        ret (Respond 200 [("message", JStr "User retrieved successfully");
                          ("user", JObj user)]))
       (fun e => ret (fetch_catch e)) t) <> Some 403.
Proof.
  unfold status, try_catch, bind.
  destruct (getUserById i t) as [[o|e] t']; simpl; [discriminate|].
  unfold fetch_catch. destruct (message e =? "User not found")%string;
    simpl; discriminate.
Qed.

Lemma update_tail_not_403 (now : Date) (i : Z) (u : Updates) (t : Table) :
  status
    (try_catch
       (updatedUser <- updateUser now i u ;;
        ret (Respond 200 [("message", JStr "User updated successfully");
                          ("user", of_option updatedUser)]))
       (fun e => ret (update_catch e)) t) <> Some 403.
Proof.
  unfold status, try_catch, bind.
  destruct (updateUser now i u t) as [[o|e] t']; simpl; [discriminate|].
  unfold update_catch. destruct (message e =? "User not found")%string;
    [simpl; discriminate|].
  destruct (message e =? "User with this email already exists")%string;
    simpl; discriminate.
Qed.

(** C6: viewing one user and updating a user pass the handler's ownership
    guard exactly when the actor is the target or an admin.  Every other
    pair of actor and target is answered 403 with the table untouched; a
    view is answered 403 in no other case, and neither is an update whose
    payload carries no role. *)
Theorem view_update_self_or_admin (now : Date) (req : Request) (i : Z)
    (u : Updates) (t : Table) :
  params req = ParseSuccess i ->
  body req = ParseSuccess u ->
  let allowed := actor_id (user req) = i \/ actor_role (user req) = "admin" in
  (status (run (fetchUserById req) t) = Some 403 <-> ~ allowed)
  /\ (~ allowed ->
      run (fetchUserById req) t
      = (Ok (access_denied "You can only view your own profile"), t))
  /\ (run (updateUserById now req) t
      = (Ok (access_denied "You can only update your own profile"), t)
      <-> ~ allowed)
  /\ (~ allowed -> status (run (updateUserById now req) t) = Some 403)
  /\ (upd_role u = None ->
      (status (run (updateUserById now req) t) = Some 403 <-> ~ allowed)).
Proof.
  intros Hp Hb allowed. subst allowed.
  set (a := user req).
  destruct (not_admin (actor_role a) && negb (actor_id a =? i)) eqn:G.
  - assert (D : ~ (actor_id a = i \/ actor_role a = "admin"))
      by (now apply view_guard).
    assert (F : run (fetchUserById req) t
                = (Ok (access_denied "You can only view your own profile"), t)).
    { unfold run, fetchUserById, try_catch. rewrite Hp. fold a.
      rewrite G. reflexivity. }
    assert (U : run (updateUserById now req) t
                = (Ok (access_denied "You can only update your own profile"),
                   t)).
    { unfold run, updateUserById, try_catch. rewrite Hp, Hb. fold a.
      rewrite G. reflexivity. }
    repeat split; intros; try assumption;
      try (rewrite F; reflexivity); try (rewrite U; reflexivity).
  - assert (D : actor_id a = i \/ actor_role a = "admin")
      by (now apply view_guard_false).
    assert (F : status (run (fetchUserById req) t) <> Some 403).
    { unfold run, fetchUserById. unfold try_catch at 1. rewrite Hp. fold a.
      rewrite G. apply (fetch_tail_not_403 i t). }
    assert (U : forall out,
               run (updateUserById now req) t = (Ok out, t) ->
               out <> access_denied "You can only update your own profile").
    { unfold run, updateUserById. unfold try_catch at 1.
      rewrite Hp, Hb. fold a. rewrite G.
      destruct (truthy (upd_role u) && not_admin (actor_role a)).
      - simpl. intros out E. inversion E. discriminate.
      - intros out E Eo. apply (update_tail_not_403 now i u t).
        unfold status, try_catch at 1. rewrite E. rewrite Eo. reflexivity. }
    repeat split; intros; try tauto.
    + exfalso. apply (U _ H). reflexivity.
    + exfalso. revert H0. unfold run, updateUserById.
      unfold try_catch at 1. rewrite Hp, Hb. fold a. rewrite G, H. simpl.
      apply (update_tail_not_403 now i u t).
Qed.

(** ** Mapping of exceptions to responses *)


Lemma update_tail_throw (now : Date) (i : Z) (u : Updates) (t t' : Table)
    (e : Error) :
  run (updateUser now i u) t = (Throw e, t') ->
  try_catch
    (updatedUser <- updateUser now i u ;;
     ret (Respond 200 [("message", JStr "User updated successfully");
                       ("user", of_option updatedUser)]))
    (fun e => ret (update_catch e)) t = (Ok (update_catch e), t').
Proof.
  unfold run, try_catch, bind. intros H. rewrite H. reflexivity.
Qed.






(** ** What [updateUser] computes *)

Lemma updateUser_run (now : Date) (i : Z) (u : Updates) (t : Table) :
  run (updateUser now i u) t =
  match first (filter (eq_id i) t) with
  | None => (Throw not_found, t)
  | Some _ =>
      match stored_password u with
      | Throw e => (Throw e, t)
      | Ok pw =>
          let d := {| set_name := upd_name u;
                      set_email := upd_email u;
                      set_password := pw;
                      set_role := upd_role u;
                      set_updated_at := Some now |} in
          let t' := map (fun r => if eq_id i r then apply_set d r else r) t in
          if emails_unique t'
          then (Ok (first (map (project public_fields) (filter (eq_id i) t'))),
                t')
          else (Throw unique_violation, t)
      end
  end.
Proof.
  unfold run, updateUser, try_catch.
  unfold bind at 1.
  pose proof (first_limit_select id_email (eq_id i) t) as L.
  unfold run in L. rewrite L. clear L.
  destruct (first (filter (eq_id i) t)) as [r0|]; [|reflexivity].
  unfold first at 1. unfold stored_password, bind, lift, ret, db_update.
  destruct (upd_password u) as [p|].
  - destruct (truthy (Some p)).
    + destruct (hashPassword p) as [h|e]; [|reflexivity].
      cbv zeta.
      match goal with
      | |- context [emails_unique ?x] => destruct (emails_unique x)
      end; reflexivity.
    + cbv zeta.
      match goal with
      | |- context [emails_unique ?x] => destruct (emails_unique x)
      end; reflexivity.
  - cbv zeta.
    match goal with
    | |- context [emails_unique ?x] => destruct (emails_unique x)
    end; reflexivity.
Qed.

Lemma filter_updated (i : Z) (d : UpdateData) (t : Table) :
  filter (eq_id i) (map (fun r => if eq_id i r then apply_set d r else r) t)
  = map (apply_set d) (filter (eq_id i) t).
Proof.
  induction t as [|r t IH]; [reflexivity|]. simpl.
  destruct (eq_id i r) eqn:E.
  - replace (eq_id i (apply_set d r)) with true by (symmetry; exact E).
    simpl. now rewrite IH.
  - rewrite E. exact IH.
Qed.

Lemma first_map {A B : Type} (f : A -> B) (l : list A) :
  first (map f l) = option_map f (first l).
Proof. destruct l; reflexivity. Qed.

Lemma Forall2_map_self {A : Type} (P : A -> A -> Prop) (f : A -> A)
    (l : list A) :
  (forall x, P x (f x)) -> Forall2 P l (map f l).
Proof.
  intros H. induction l as [|x l IH]; simpl; constructor; auto.
Qed.

Lemma getUserById_run (i : Z) (t : Table) :
  run (getUserById i) t =
  match first (filter (eq_id i) t) with
  | Some r => (Ok (project public_fields r), t)
  | None => (Throw not_found, t)
  end.
Proof.
  unfold run, getUserById, try_catch. unfold bind at 1.
  pose proof (first_limit_select public_fields (eq_id i) t) as L.
  unfold run in L. rewrite L.
  destruct (first (filter (eq_id i) t)); reflexivity.
Qed.

Lemma stored_password_applied (now : Date) (u : Updates) (pw : option string)
    (r : UserRow) :
  stored_password u = Ok pw ->
  sparse_applied now u r
    (apply_set {| set_name := upd_name u;
                  set_email := upd_email u;
                  set_password := pw;
                  set_role := upd_role u;
                  set_updated_at := Some now |} r).
Proof.
  unfold stored_password, sparse_applied, truthy. intros H. simpl.
  repeat split.
  destruct (upd_password u) as [p|].
  - destruct (p =? "")%string; simpl in H.
    + inversion H. reflexivity.
    + destruct (hashPassword p) as [h|e]; inversion H. reflexivity.
  - inversion H. reflexivity.
Qed.

(** C7: when [updateUser] succeeds, every row with another id is exactly
    as before; in a row with the target id each key of the sparse set has
    its new value (the password its hash), [updated_at] is the time of the
    call, and every key absent from the set, as well as [id] and
    [created_at], keeps its value.  The user returned, and the one a
    following [getUserById] returns, is the projection of the updated
    row. *)
Theorem sparse_update_frame (now : Date) (i : Z) (u : Updates)
    (t t' : Table) (res : option Obj) :
  run (updateUser now i u) t = (Ok res, t') ->
  Forall2 (fun r r' => if u_id r =? i then sparse_applied now u r r'
                       else r' = r) t t'
  /\ exists r r',
       first (filter (eq_id i) t) = Some r
       /\ first (filter (eq_id i) t') = Some r'
       /\ sparse_applied now u r r'
       /\ res = Some (project public_fields r')
       /\ run (getUserById i) t' = (Ok (project public_fields r'), t')
       /\ get "id" (project public_fields r') = Some (VNum (u_id r))
       /\ get "name" (project public_fields r')
          = Some (VStr (or_keep (upd_name u) (u_name r)))
       /\ get "email" (project public_fields r')
          = Some (VStr (or_keep (upd_email u) (u_email r)))
       /\ get "role" (project public_fields r')
          = Some (VStr (or_keep (upd_role u) (u_role r)))
       /\ get "created_at" (project public_fields r')
          = Some (VDate (u_created_at r))
       /\ get "updated_at" (project public_fields r') = Some (VDate now).
Proof.
  rewrite updateUser_run.
  destruct (first (filter (eq_id i) t)) as [r|] eqn:F; [|discriminate].
  destruct (stored_password u) as [pw|e] eqn:P; [|discriminate].
  cbv zeta.
  set (d := {| set_name := upd_name u; set_email := upd_email u;
               set_password := pw; set_role := upd_role u;
               set_updated_at := Some now |}).
  destruct (emails_unique _); [|discriminate].
  intros H. inversion H as [[Hres Ht']]. clear H.
  split.
  - apply Forall2_map_self. intros x. unfold eq_id.
    destruct (u_id x =? i); [|reflexivity].
    now apply stored_password_applied.
  - exists r, (apply_set d r).
    rewrite filter_updated, !first_map, F. simpl option_map.
    pose proof (stored_password_applied now u pw r P) as S. fold d in S.
    repeat split; try apply S.
    rewrite getUserById_run, filter_updated, first_map, F. reflexivity.
Qed.

Lemma emails_kept (i : Z) (d : UpdateData) (t : Table) :
  set_email d = None ->
  map u_email (map (fun r => if eq_id i r then apply_set d r else r) t)
  = map u_email t.
Proof.
  intros H. rewrite map_map. apply map_ext. intros r.
  destruct (eq_id i r); [|reflexivity]. simpl. now rewrite H.
Qed.

(** C9: on a table whose emails are distinct, [updateUser] with the empty
    sparse set on an id that some row carries returns a user and differs
    from a no-op: the rows of that id keep every field but [updated_at],
    which becomes the time of the call; all other rows are untouched. *)
Theorem empty_update_refreshes_timestamp (now : Date) (i : Z) (t : Table) :
  emails_unique t = true ->
  (exists r, In r t /\ u_id r = i) ->
  exists r,
    In r t /\ u_id r = i
    /\ run (updateUser now i no_updates) t
       = (Ok (Some (project public_fields (touch now r))),
          map (fun r => if u_id r =? i then touch now r else r) t)
    /\ get "updated_at" (project public_fields (touch now r))
       = Some (VDate now).
Proof.
  intros Hu Hex.
  destruct (filter_present i t Hex) as [r0 [F [Hin Hid]]].
  exists r0. repeat split; try assumption.
  rewrite updateUser_run, F.
  change (stored_password no_updates) with (@Ok (option string) None).
  cbv zeta.
  unfold emails_unique. rewrite emails_kept by reflexivity.
  unfold emails_unique in Hu. rewrite Hu.
  rewrite filter_updated, !first_map, F. reflexivity.
Qed.

(** ** No password in what is read *)

Lemma updateUser_returns_row (now : Date) (i : Z) (u : Updates)
    (t t' : Table) (o : Obj) :
  run (updateUser now i u) t = (Ok (Some o), t') ->
  exists r', In r' t' /\ o = project public_fields r'.
Proof.
  rewrite updateUser_run.
  destruct (first (filter (eq_id i) t)) as [r|]; [|discriminate].
  destruct (stored_password u) as [pw|e]; [|discriminate].
  cbv zeta.
  destruct (emails_unique _); [|discriminate].
  intros H. inversion H as [[Hres Ht']]. clear H.
  rewrite first_map in Hres.
  match type of Hres with
  | option_map _ (first (filter ?w ?l)) = _ =>
      destruct (filter w l) as [|x rest] eqn:E; [discriminate|];
      assert (I : In x (filter w l)) by (rewrite E; left; reflexivity)
  end.
  simpl in Hres. inversion Hres. apply filter_In in I.
  exists x. split; [tauto | reflexivity].
Qed.

Lemma project_public_keys (r : UserRow) :
  keys (project public_fields r) = public_keys
  /\ get "password" (project public_fields r) = None.
Proof. split; reflexivity. Qed.

Lemma getUserById_password_free (i : Z) (t t' : Table) (o : Obj) :
  run (getUserById i) t = (Ok o, t') ->
  (exists r, In r t /\ o = project public_fields r)
  /\ keys o = public_keys /\ get "password" o = None.
Proof.
  intros H. rewrite getUserById_run in H.
  destruct (first (filter (eq_id i) t)) as [r|] eqn:F; [|discriminate].
  injection H as Ho _. subst o.
  split; [|apply project_public_keys].
  exists r. split; [|reflexivity].
  destruct (filter (eq_id i) t) as [|x l] eqn:E; [discriminate|].
  injection F as F. subst x.
  assert (I : In r (filter (eq_id i) t)) by (rewrite E; left; reflexivity).
  apply filter_In in I. tauto.
Qed.

Lemma getAllUsers_password_free (t t' : Table) (us : list Obj) (o : Obj) :
  run getAllUsers t = (Ok us, t') -> In o us ->
  (exists r, In r t /\ o = project public_fields r)
  /\ keys o = public_keys /\ get "password" o = None.
Proof.
  intros H Hin.
  unfold run, getAllUsers, try_catch, bind, db_select, ret in H.
  injection H as Hus _. subst us.
  apply in_map_iff in Hin. destruct Hin as [r [Ho Hr]].
  apply filter_In in Hr. destruct Hr as [Hr _]. subst o.
  split; [exists r; auto | apply project_public_keys].
Qed.

Lemma updateUser_returns_some (now : Date) (i : Z) (u : Updates)
    (t t' : Table) (res : option Obj) :
  run (updateUser now i u) t = (Ok res, t') -> res <> None.
Proof.
  rewrite updateUser_run.
  destruct (first (filter (eq_id i) t)) as [r|] eqn:F; [|discriminate].
  destruct (stored_password u) as [pw|e]; [|discriminate].
  cbv zeta.
  destruct (emails_unique _); [|discriminate].
  rewrite filter_updated, !first_map, F.
  intros H. injection H as Hres _. subst res. discriminate.
Qed.

(** A user object in the body of a response. *)
Lemma fetchUserById_200 (req : Request) (t t' : Table)
    (json : list (string * Json)) :
  run (fetchUserById req) t = (Ok (Respond 200 json), t') ->
  exists i o,
    run (getUserById i) t = (Ok o, t')
    /\ json = [("message", JStr "User retrieved successfully");
               ("user", JObj o)].
Proof.
  unfold run, fetchUserById, try_catch at 1.
  destruct (params req) as [i|d]; [|simpl; discriminate].
  destruct (_ && _); [simpl; discriminate|].
  unfold bind.
  destruct (getUserById i t) as [[o|e] t0] eqn:R.
  - simpl. intros H. injection H as Hj Ht. subst. exists i, o. auto.
  - simpl. unfold fetch_catch.
    destruct (message e =? "User not found")%string; discriminate.
Qed.

Lemma fetchAllUsers_200 (req : Request) (t t' : Table)
    (json : list (string * Json)) :
  run (fetchAllUsers req) t = (Ok (Respond 200 json), t') ->
  exists us,
    run getAllUsers t = (Ok us, t')
    /\ json = [("message", JStr "Users retrieved successfully");
               ("users", JArr us)].
Proof.
  unfold run, fetchAllUsers, try_catch at 1.
  destruct (not_admin _); [simpl; discriminate|].
  unfold bind.
  destruct (getAllUsers t) as [[us|e] t0] eqn:R.
  - simpl. intros H. injection H as Hj Ht. subst. exists us. auto.
  - simpl. discriminate.
Qed.

Lemma updateUserById_200 (now : Date) (req : Request) (t t' : Table)
    (json : list (string * Json)) :
  run (updateUserById now req) t = (Ok (Respond 200 json), t') ->
  exists i u o,
    run (updateUser now i u) t = (Ok (Some o), t')
    /\ json = [("message", JStr "User updated successfully");
               ("user", JObj o)].
Proof.
  unfold run, updateUserById, try_catch at 1.
  destruct (params req) as [i|d]; [|simpl; discriminate].
  destruct (body req) as [u|d]; [|simpl; discriminate].
  destruct (_ && _); [simpl; discriminate|].
  destruct (_ && _); [simpl; discriminate|].
  unfold bind.
  destruct (updateUser now i u t) as [[res|e] t0] eqn:R.
  - simpl. intros H. injection H as Hj Ht. subst.
    pose proof (updateUser_returns_some now i u t t' res R) as N.
    destruct res as [o|]; [|contradiction].
    exists i, u, o. auto.
  - simpl. unfold update_catch.
    destruct (message e =? "User not found")%string; [discriminate|].
    destruct (message e =? "User with this email already exists")%string;
      discriminate.
Qed.

(** C4: [getAllUsers], [getUserById] and a successful [updateUser] return
    only projections of rows on the columns [id], [name], [email], [role],
    [created_at] and [updated_at]: the password column is not selected and
    no returned object has a [password] key.  The 200 responses of the
    three handlers that read carry exactly these objects. *)
Theorem password_projected_out :
  forallb (fun kc => negb (users.is_password (snd kc))) public_fields = true
  /\ (forall t us t' o,
        run getAllUsers t = (Ok us, t') -> In o us ->
        (exists r, In r t /\ o = project public_fields r)
        /\ keys o = public_keys /\ get "password" o = None)
  /\ (forall i t o t',
        run (getUserById i) t = (Ok o, t') ->
        (exists r, In r t /\ o = project public_fields r)
        /\ keys o = public_keys /\ get "password" o = None)
  /\ (forall now i u t o t',
        run (updateUser now i u) t = (Ok (Some o), t') ->
        (exists r', In r' t' /\ o = project public_fields r')
        /\ keys o = public_keys /\ get "password" o = None)
  /\ (forall req t json t',
        run (fetchAllUsers req) t = (Ok (Respond 200 json), t') ->
        exists us,
          json = [("message", JStr "Users retrieved successfully");
                  ("users", JArr us)]
          /\ forall o, In o us ->
                       keys o = public_keys /\ get "password" o = None)
  /\ (forall req t json t',
        run (fetchUserById req) t = (Ok (Respond 200 json), t') ->
        exists o,
          json = [("message", JStr "User retrieved successfully");
                  ("user", JObj o)]
          /\ keys o = public_keys /\ get "password" o = None)
  /\ (forall now req t json t',
        run (updateUserById now req) t = (Ok (Respond 200 json), t') ->
        exists o,
          json = [("message", JStr "User updated successfully");
                  ("user", JObj o)]
          /\ keys o = public_keys /\ get "password" o = None).
Proof.
  split; [reflexivity|]. repeat apply conj.
  - intros t us t' o. apply getAllUsers_password_free.
  - intros i t o t'. apply getUserById_password_free.
  - intros now i u t o t' H.
    destruct (updateUser_returns_row now i u t t' o H) as [r' [Hin Ho]].
    subst o.
    split; [exists r'; auto | apply project_public_keys].
  - intros req t json t' H.
    destruct (fetchAllUsers_200 req t t' json H) as [us [R J]].
    exists us. split; [exact J|]. intros o Hin.
    apply (getAllUsers_password_free t t' us o R Hin).
  - intros req t json t' H.
    destruct (fetchUserById_200 req t t' json H) as [i [o [R J]]].
    exists o. split; [exact J|].
    apply (getUserById_password_free i t t' o R).
  - intros now req t json t' H.
    destruct (updateUserById_200 now req t t' json H) as [i [u [o [R J]]]].
    exists o. split; [exact J|].
    destruct (updateUser_returns_row now i u t t' o R) as [r' [_ Ho]].
    subst o. apply project_public_keys.
Qed.

(** ** An email that another row already has *)

Lemma distinct_NoDup (l : list string) : distinct l = true -> NoDup l.
Proof.
  induction l as [|x l IH]; simpl; intros H; constructor.
  - apply andb_true_iff in H. destruct H as [H _].
    apply negb_true_iff in H. intros Hin.
    assert (E : existsb (String.eqb x) l = true).
    { apply existsb_exists. exists x. split; [exact Hin|].
      apply String.eqb_refl. }
    congruence.
  - apply IH. apply andb_true_iff in H. tauto.
Qed.

Lemma NoDup_map_injective {A B : Type} (g : A -> B) (l : list A) (x y : A) :
  NoDup (map g l) -> In x l -> In y l -> g x = g y -> x = y.
Proof.
  induction l as [|a l IH]; simpl; intros N Hx Hy E; [contradiction|].
  inversion N as [|b l' Hnin N']; subst.
  destruct Hx as [Hx|Hx]; destruct Hy as [Hy|Hy].
  - congruence.
  - subst a. exfalso. apply Hnin. rewrite E. now apply in_map.
  - subst a. exfalso. apply Hnin. rewrite <- E. now apply in_map.
  - now apply IH.
Qed.

Lemma updateUser_email_collision (now : Date) (i : Z) (u : Updates)
    (e : string) (pw : option string) (t : Table) :
  upd_email u = Some e ->
  stored_password u = Ok pw ->
  (exists r, In r t /\ u_id r = i) ->
  (exists r', In r' t /\ u_id r' <> i /\ u_email r' = e) ->
  run (updateUser now i u) t = (Throw unique_violation, t).
Proof.
  intros He Hpw Hex [r' [Hin' [Hid' Hmail']]].
  destruct (filter_present i t Hex) as [r [_ [Hin Hid]]].
  rewrite updateUser_run.
  destruct (filter_present i t Hex) as [r0 [F _]]. rewrite F, Hpw.
  cbv zeta.
  set (d := {| set_name := upd_name u; set_email := upd_email u;
               set_password := pw; set_role := upd_role u;
               set_updated_at := Some now |}).
  set (f := fun x => if eq_id i x then apply_set d x else x).
  destruct (emails_unique (map f t)) eqn:U; [|reflexivity].
  exfalso. apply distinct_NoDup in U.
  assert (Er : f r = apply_set d r).
  { unfold f, eq_id. apply Z.eqb_eq in Hid. now rewrite Hid. }
  assert (Er' : f r' = r').
  { unfold f, eq_id. apply Z.eqb_neq in Hid'. now rewrite Hid'. }
  assert (X : f r = f r').
  { apply (NoDup_map_injective u_email (map f t)); try assumption.
    - now apply in_map.
    - now apply in_map.
    - rewrite Er, Er'. simpl. rewrite He. simpl. congruence. }
  rewrite Er, Er' in X. apply Hid'. rewrite <- X. exact Hid.
Qed.

Lemma updateUser_throws (now : Date) (i : Z) (u : Updates) (t t' : Table)
    (e : Error) :
  run (updateUser now i u) t = (Throw e, t') ->
  t' = t
  /\ (e = not_found \/ e = unique_violation
      \/ exists p, hashPassword p = Throw e).
Proof.
  rewrite updateUser_run.
  destruct (first (filter (eq_id i) t)).
  - destruct (stored_password u) as [pw|e0] eqn:P.
    + cbv zeta. destruct (emails_unique _); [discriminate|].
      intros H. injection H as He Ht. subst. auto.
    + intros H. injection H as He Ht. subst. split; [reflexivity|].
      right. right. unfold stored_password in P.
      destruct (upd_password u) as [p|]; [|discriminate].
      destruct (truthy (Some p)); [|discriminate].
      exists p. destruct (hashPassword p); [discriminate|].
      congruence.
  - intros H. injection H as He Ht. subst. auto.
Qed.

(** The 409 branch of the update handler is out of reach of its own
    service: no exception of [updateUser] carries the message the branch
    tests for, unless the hasher or the driver happens to produce it. *)
Lemma update_never_409 (now : Date) (req : Request) (t : Table) :
  message unique_violation <> "User with this email already exists" ->
  (forall p e, hashPassword p = Throw e ->
               message e <> "User with this email already exists") ->
  status (run (updateUserById now req) t) <> Some 409.
Proof.
  intros Hv Hh. unfold status, run, updateUserById, try_catch at 1.
  destruct (params req) as [i|d]; [|simpl; discriminate].
  destruct (body req) as [u|d]; [|simpl; discriminate].
  destruct (_ && _); [simpl; discriminate|].
  destruct (_ && _); [simpl; discriminate|].
  unfold bind.
  destruct (updateUser now i u t) as [[o|e] t'] eqn:R; [simpl; discriminate|].
  apply updateUser_throws in R. destruct R as [_ R].
  assert (M : message e <> "User with this email already exists").
  { destruct R as [R|[R|[p R]]]; subst; try assumption.
    - discriminate.
    - now apply (Hh p). }
  simpl. unfold update_catch.
  destruct (message e =? "User not found")%string; [simpl; discriminate|].
  apply String.eqb_neq in M. rewrite M. simpl. discriminate.
Qed.

(** C1 (where the handler departs from the specification):
    [deleteUserById] tests only whether the target is the actor and never
    answers 403.  Eve, whose role
    is [user], deletes Bob's row: the handler answers 200 and the row is
    gone. *)
Theorem delete_by_non_admin_succeeds :
  (forall req t, status (run (deleteUserById req) t) <> Some 403)
  /\ actor_role Sample.as_eve = "user"
  /\ run (deleteUserById (Sample.request Sample.as_eve 2 no_updates))
         Sample.table
     = (Ok (Respond 200 [("message", JStr "User deleted successfully")]),
        [Sample.alice; Sample.eve]).
Proof.
  split; [|split; reflexivity].
  intros req t. unfold status, run, deleteUserById, try_catch, bind.
  destruct (params req) as [i|d]; [|simpl; discriminate].
  destruct (actor_id (user req) =? i); [simpl; discriminate|].
  destruct (deleteUser i t) as [[o|e] t']; simpl; [discriminate|].
  unfold delete_catch.
  destruct (message e =? "User not found")%string; simpl; discriminate.
Qed.

(** * Further properties of the service and the handlers *)

(** ** Listing and looking up *)

Lemma filter_all (t : Table) : filter (fun _ : UserRow => true) t = t.
Proof.
  induction t as [|r t IH]; simpl; [reflexivity | now rewrite IH].
Qed.

Lemma getAllUsers_run (t : Table) :
  run getAllUsers t = (Ok (map (project public_fields) t), t).
Proof.
  unfold run, getAllUsers, try_catch, bind, db_select, ret.
  now rewrite filter_all.
Qed.

(** X1: [fetchAllUsers] looks at the actor's role and at nothing else: an
    admin receives 200 with the projections of the rows of the table, each
    row once, in whatever order the store returns them (the query asks for
    none); any other role receives 403, whatever the table holds.  Neither
    answer changes the table. *)
Theorem fetchAllUsers_admin_only (req : Request) (t : Table) :
  (actor_role (user req) = "admin" ->
   exists us,
     run (fetchAllUsers req) t
     = (Ok (Respond 200 [("message", JStr "Users retrieved successfully");
                         ("users", JArr us)]), t)
     /\ Permutation us (map (project public_fields) t))
  /\ (actor_role (user req) <> "admin" ->
      run (fetchAllUsers req) t
      = (Ok (Respond 403
               [("error", JStr "Access denied");
                ("message",
                 JStr "Only administrators can view all users")]), t)).
Proof.
  split; intros H.
  - assert (A : not_admin (actor_role (user req)) = false)
      by (unfold not_admin; rewrite H; reflexivity).
    exists (map (project public_fields) t). split; [|apply Permutation_refl].
    unfold run, fetchAllUsers, try_catch at 1. rewrite A.
    unfold bind. pose proof (getAllUsers_run t) as R. unfold run in R.
    rewrite R. reflexivity.
  - apply not_admin_true in H.
    unfold run, fetchAllUsers, try_catch. rewrite H. reflexivity.
Qed.

(** X2: for a validated id and an actor who is the target or an admin,
    [fetchUserById] answers 404 when no row has the id and otherwise 200
    with the projection of the first row that has it, whose [id] is the one
    asked for; the table is never changed by this handler. *)
Theorem fetchUserById_found_or_404 (req : Request) (i : Z) (t : Table) :
  params req = ParseSuccess i ->
  actor_id (user req) = i \/ actor_role (user req) = "admin" ->
  ((forall r, In r t -> u_id r <> i) ->
   run (fetchUserById req) t
   = (Ok (Respond 404 [("error", JStr "User not found")]), t))
  /\ ((exists r, In r t /\ u_id r = i) ->
      exists r,
        first (filter (eq_id i) t) = Some r
        /\ In r t
        /\ get "id" (project public_fields r) = Some (VNum i)
        /\ run (fetchUserById req) t
           = (Ok (Respond 200
                    [("message", JStr "User retrieved successfully");
                     ("user", JObj (project public_fields r))]), t))
  /\ (forall out t', run (fetchUserById req) t = (out, t') -> t' = t).
Proof.
  intros Hp Hal. apply view_guard_false in Hal.
  assert (E : run (fetchUserById req) t
              = match first (filter (eq_id i) t) with
                | Some r =>
                    (Ok (Respond 200
                           [("message", JStr "User retrieved successfully");
                            ("user", JObj (project public_fields r))]), t)
                | None =>
                    (Ok (Respond 404 [("error", JStr "User not found")]), t)
                end).
  { unfold run, fetchUserById, try_catch at 1. rewrite Hp, Hal.
    unfold bind. pose proof (getUserById_run i t) as R. unfold run in R.
    rewrite R. destruct (first (filter (eq_id i) t)); reflexivity. }
  repeat apply conj.
  - intros Habs. rewrite E, (filter_absent i t Habs). reflexivity.
  - intros Hex. destruct (filter_present i t Hex) as [r [F [Hin Hid]]].
    exists r. rewrite E, F. repeat split; try assumption.
    simpl. now rewrite Hid.
  - intros out t' H. rewrite E in H.
    destruct (first (filter (eq_id i) t)); now inversion H.
Qed.

(** ** Deleting *)

Lemma deleteUser_run (i : Z) (t : Table) :
  run (deleteUser i) t =
  match first (filter (eq_id i) t) with
  | None => (Throw not_found, t)
  | Some _ =>
      (Ok [("message", JStr "User deleted successfully")],
       filter (fun r => negb (eq_id i r)) t)
  end.
Proof.
  unfold run, deleteUser, try_catch. unfold bind at 1.
  pose proof (first_limit_select id_email (eq_id i) t) as L.
  unfold run in L. rewrite L.
  destruct (first (filter (eq_id i) t)); reflexivity.
Qed.

Lemma filter_removed (i : Z) (t : Table) :
  filter (eq_id i) (filter (fun r => negb (eq_id i r)) t) = [].
Proof.
  induction t as [|r t IH]; [reflexivity|]. simpl.
  destruct (eq_id i r) eqn:E; simpl; [exact IH|]. now rewrite E.
Qed.

Lemma filter_other_id (i j : Z) (t : Table) :
  j <> i ->
  filter (eq_id j) (filter (fun r => negb (eq_id i r)) t)
  = filter (eq_id j) t.
Proof.
  intros Hne. induction t as [|r t IH]; [reflexivity|]. simpl.
  destruct (eq_id i r) eqn:E; simpl.
  - assert (N : eq_id j r = false).
    { unfold eq_id in *. apply Z.eqb_eq in E. apply Z.eqb_neq. congruence. }
    rewrite N. exact IH.
  - destruct (eq_id j r); [now rewrite IH | exact IH].
Qed.

(** X3: for a validated id that some row carries and an actor whose own id
    is another one, [deleteUserById] answers 200 whatever the actor's role
    is, and the table afterwards holds exactly the rows of the other ids,
    in their old order. *)
Theorem deleteUserById_removes_rows (req : Request) (i : Z) (t : Table) :
  params req = ParseSuccess i ->
  actor_id (user req) <> i ->
  (exists r, In r t /\ u_id r = i) ->
  run (deleteUserById req) t
  = (Ok (Respond 200 [("message", JStr "User deleted successfully")]),
     filter (fun r => negb (u_id r =? i)) t)
  /\ forall r, In r (filter (fun r => negb (u_id r =? i)) t)
               <-> In r t /\ u_id r <> i.
Proof.
  intros Hp Hne Hex. split.
  - destruct (filter_present i t Hex) as [r0 [F _]].
    unfold run, deleteUserById, try_catch at 1. rewrite Hp.
    apply Z.eqb_neq in Hne. rewrite Hne. unfold bind.
    pose proof (deleteUser_run i t) as R. unfold run in R.
    rewrite R, F. reflexivity.
  - intros r. rewrite filter_In, negb_true_iff, Z.eqb_neq. tauto.
Qed.

(** X4: once [deleteUser] has succeeded on an id, looking that id up,
    updating it and deleting it again all throw [User not found], while
    looking up any other id gives what it gave before the deletion. *)
Theorem deleteUser_then_lookup (now : Date) (i : Z) (u : Updates)
    (t t' : Table) (m : list (string * Json)) :
  run (deleteUser i) t = (Ok m, t') ->
  run (getUserById i) t' = (Throw not_found, t')
  /\ run (updateUser now i u) t' = (Throw not_found, t')
  /\ run (deleteUser i) t' = (Throw not_found, t')
  /\ forall j, j <> i ->
       run (getUserById j) t' = (fst (run (getUserById j) t), t').
Proof.
  rewrite deleteUser_run.
  destruct (first (filter (eq_id i) t)) as [r0|]; [|discriminate].
  intros H. injection H as _ Ht. subst t'.
  repeat apply conj.
  - rewrite getUserById_run, filter_removed. reflexivity.
  - rewrite updateUser_run, filter_removed. reflexivity.
  - rewrite deleteUser_run, filter_removed. reflexivity.
  - intros j Hj. rewrite !getUserById_run, (filter_other_id i j t Hj).
    destruct (first (filter (eq_id j) t)); reflexivity.
Qed.

(** ** Validation comes first *)

(** X6: a request whose id fails validation is answered 400 with the
    validator's details by the three handlers that take an id, and an
    update whose body fails validation likewise; this holds for every
    actor, also one the handler would otherwise refuse, and the table is
    not read or changed. *)
Theorem validation_failure_is_400 (now : Date) (req : Request) (t : Table)
    (details : string) :
  (params req = ParseFailure details ->
   run (fetchUserById req) t
   = (Ok (Respond 400 [("error", JStr "Validation failed");
                       ("details", JStr details)]), t)
   /\ run (updateUserById now req) t
      = (Ok (Respond 400 [("error", JStr "Validation failed");
                          ("details", JStr details)]), t)
   /\ run (deleteUserById req) t
      = (Ok (Respond 400 [("error", JStr "Validation failed");
                          ("details", JStr details)]), t))
  /\ (forall i, params req = ParseSuccess i ->
      body req = ParseFailure details ->
      run (updateUserById now req) t
      = (Ok (Respond 400 [("error", JStr "Validation failed");
                          ("details", JStr details)]), t)).
Proof.
  split.
  - intros Hp. unfold run, fetchUserById, updateUserById, deleteUserById,
      try_catch. rewrite Hp. repeat split.
  - intros i Hp Hb. unfold run, updateUserById, try_catch.
    rewrite Hp, Hb. reflexivity.
Qed.

(** ** Updating *)

Lemma updateUser_ok_shape (now : Date) (i : Z) (u : Updates) (t t' : Table)
    (res : option Obj) :
  run (updateUser now i u) t = (Ok res, t') ->
  exists pw,
    stored_password u = Ok pw
    /\ first (filter (eq_id i) t) <> None
    /\ emails_unique t' = true
    /\ t' = map (fun r =>
                   if eq_id i r
                   then apply_set {| set_name := upd_name u;
                                     set_email := upd_email u;
                                     set_password := pw;
                                     set_role := upd_role u;
                                     set_updated_at := Some now |} r
                   else r) t.
Proof.
  rewrite updateUser_run.
  destruct (first (filter (eq_id i) t)) as [r|]; [|discriminate].
  destruct (stored_password u) as [pw|e]; [|discriminate].
  cbv zeta. destruct (emails_unique _) eqn:U; [|discriminate].
  intros H. injection H as _ Ht. exists pw.
  repeat split; [discriminate | rewrite <- Ht; exact U | now symmetry].
Qed.

Lemma filter_updated_other (i j : Z) (d : UpdateData) (t : Table) :
  j <> i ->
  filter (eq_id j) (map (fun r => if eq_id i r then apply_set d r else r) t)
  = filter (eq_id j) t.
Proof.
  intros Hne. induction t as [|r t IH]; [reflexivity|]. simpl.
  destruct (eq_id i r) eqn:E.
  - assert (N : eq_id j r = false).
    { unfold eq_id in *. apply Z.eqb_eq in E. apply Z.eqb_neq. congruence. }
    replace (eq_id j (apply_set d r)) with (eq_id j r) by reflexivity.
    rewrite N. exact IH.
  - destruct (eq_id j r); [now rewrite IH | exact IH].
Qed.

(** X5: a successful [updateUser] on one id is invisible from every other
    id: [getUserById] on another id returns after the update what it
    returned before. *)
Theorem updateUser_keeps_other_lookups (now : Date) (i j : Z) (u : Updates)
    (t t' : Table) (res : option Obj) :
  run (updateUser now i u) t = (Ok res, t') ->
  j <> i ->
  run (getUserById j) t' = (fst (run (getUserById j) t), t').
Proof.
  intros H Hj.
  destruct (updateUser_ok_shape now i u t t' res H) as [pw [_ [_ [_ Ht]]]].
  rewrite !getUserById_run. rewrite Ht at 1.
  rewrite (filter_updated_other i j _ t Hj).
  destruct (first (filter (eq_id j) t)); reflexivity.
Qed.

Lemma stored_password_ok (u : Updates) :
  (forall p, upd_password u = Some p -> p <> "" ->
             exists h, hashPassword p = Ok h) ->
  exists pw, stored_password u = Ok pw.
Proof.
  intros H. unfold stored_password, truthy.
  destruct (upd_password u) as [p|]; [|eexists; reflexivity].
  destruct (String.eqb_spec p "") as [E|E]; simpl; [eexists; reflexivity|].
  destruct (H p eq_refl E) as [h Hh]. rewrite Hh. eexists; reflexivity.
Qed.

Lemma update_guards_pass (req : Request) (i : Z) (u : Updates) :
  actor_role (user req) = "admin"
  \/ (actor_id (user req) = i /\ upd_role u = None) ->
  not_admin (actor_role (user req)) && negb (actor_id (user req) =? i) = false
  /\ truthy (upd_role u) && not_admin (actor_role (user req)) = false.
Proof.
  intros [Ha | [Hs Hr]].
  - unfold not_admin. rewrite Ha. split; [reflexivity | apply andb_false_r].
  - rewrite Hs, Z.eqb_refl, Hr. split; [apply andb_false_r | reflexivity].
Qed.

(** X7: when the password of an update is not empty and [hashPassword]
    throws, [updateUser] on an existing id rethrows that exception and
    writes nothing, not even the other fields of the update; the handler
    passes the exception to its catch block with the table unchanged. *)
Theorem hash_failure_persists_nothing (now : Date) (req : Request) (i : Z)
    (u : Updates) (p : string) (e : Error) (t : Table) :
  params req = ParseSuccess i ->
  body req = ParseSuccess u ->
  actor_role (user req) = "admin"
  \/ (actor_id (user req) = i /\ upd_role u = None) ->
  upd_password u = Some p ->
  p <> "" ->
  hashPassword p = Throw e ->
  (exists r, In r t /\ u_id r = i) ->
  run (updateUser now i u) t = (Throw e, t)
  /\ run (updateUserById now req) t = (Ok (update_catch e), t).
Proof.
  intros Hp Hb Hg Hpw Hne Hh Hex.
  assert (R : run (updateUser now i u) t = (Throw e, t)).
  { rewrite updateUser_run.
    destruct (filter_present i t Hex) as [r [F _]]. rewrite F.
    unfold stored_password, truthy. rewrite Hpw.
    apply String.eqb_neq in Hne. rewrite Hne. simpl. now rewrite Hh. }
  split; [exact R|].
  destruct (update_guards_pass req i u Hg) as [G1 G2].
  unfold run, updateUserById. rewrite Hp, Hb, G1, G2.
  now apply update_tail_throw.
Qed.

(** X8: an update that gives a row the email of a row with another id is
    refused by the store: [updateUser] throws the driver's exception and
    the table is unchanged.  The handler has no answer of its own for that
    exception and hands it to [next]; it answers 409 in no case, as long
    as neither the driver nor the hasher produces the message the 409
    branch tests for. *)
Theorem email_conflict_goes_to_next (now : Date) (req : Request) (i : Z)
    (u : Updates) (e : string) (t : Table) :
  params req = ParseSuccess i ->
  body req = ParseSuccess u ->
  actor_role (user req) = "admin"
  \/ (actor_id (user req) = i /\ upd_role u = None) ->
  upd_email u = Some e ->
  (forall p, upd_password u = Some p -> p <> "" ->
             exists h, hashPassword p = Ok h) ->
  (exists r, In r t /\ u_id r = i) ->
  (exists r', In r' t /\ u_id r' <> i /\ u_email r' = e) ->
  message unique_violation <> "User not found" ->
  message unique_violation <> "User with this email already exists" ->
  run (updateUser now i u) t = (Throw unique_violation, t)
  /\ run (updateUserById now req) t = (Ok (Next unique_violation), t)
  /\ ((forall p e', hashPassword p = Throw e' ->
                    message e' <> "User with this email already exists") ->
      forall req' t', status (run (updateUserById now req') t') <> Some 409).
Proof.
  intros Hp Hb Hg He Hh Hex Hother M1 M2.
  destruct (stored_password_ok u Hh) as [pw Hpw].
  pose proof (updateUser_email_collision now i u e pw t He Hpw Hex Hother)
    as R.
  split; [exact R|]. split.
  - destruct (update_guards_pass req i u Hg) as [G1 G2].
    unfold run, updateUserById. rewrite Hp, Hb, G1, G2.
    rewrite (update_tail_throw now i u t t unique_violation R).
    unfold update_catch.
    apply String.eqb_neq in M1. apply String.eqb_neq in M2.
    now rewrite M1, M2.
  - intros Hhash req' t'. now apply update_never_409.
Qed.

(** ** What the handlers can answer *)

(** X9: no handler lets an exception escape: each one either answers or
    calls [next].  [fetchAllUsers] answers 200 or 403 only;
    [fetchUserById] 200, 400, 403 or 404; [updateUserById] 200, 400, 403,
    404 or 409; [deleteUserById] 200, 400 or 404. *)
Theorem handler_statuses (now : Date) (req : Request) (t : Table) :
  (exists o t', run (fetchAllUsers req) t = (Ok o, t')
                /\ In (status_of o) [Some 200; Some 403; None])
  /\ (exists o t', run (fetchUserById req) t = (Ok o, t')
                   /\ In (status_of o)
                        [Some 200; Some 400; Some 403; Some 404; None])
  /\ (exists o t', run (updateUserById now req) t = (Ok o, t')
                   /\ In (status_of o)
                        [Some 200; Some 400; Some 403; Some 404; Some 409;
                         None])
  /\ (exists o t', run (deleteUserById req) t = (Ok o, t')
                   /\ In (status_of o) [Some 200; Some 400; Some 404; None]).
Proof.
  repeat apply conj.
  - unfold run, fetchAllUsers, try_catch at 1, bind.
    destruct (not_admin _); [do 2 eexists; split; [reflexivity|simpl; tauto]|].
    destruct (getAllUsers t) as [[us|e] t0];
      do 2 eexists; (split; [reflexivity | simpl; tauto]).
  - unfold run, fetchUserById, try_catch at 1, bind.
    destruct (params req) as [i|d];
      [|do 2 eexists; split; [reflexivity | simpl; tauto]].
    destruct (_ && _); [do 2 eexists; split; [reflexivity|simpl; tauto]|].
    destruct (getUserById i t) as [[o|e] t0];
      [do 2 eexists; split; [reflexivity | simpl; tauto]|].
    simpl. unfold fetch_catch.
    destruct (message e =? "User not found")%string;
      do 2 eexists; (split; [reflexivity | simpl; tauto]).
  - unfold run, updateUserById, try_catch at 1, bind.
    destruct (params req) as [i|d];
      [|do 2 eexists; split; [reflexivity | simpl; tauto]].
    destruct (body req) as [u|d];
      [|do 2 eexists; split; [reflexivity | simpl; tauto]].
    destruct (_ && _); [do 2 eexists; split; [reflexivity|simpl; tauto]|].
    destruct (_ && _); [do 2 eexists; split; [reflexivity|simpl; tauto]|].
    destruct (updateUser now i u t) as [[o|e] t0];
      [do 2 eexists; split; [reflexivity | simpl; tauto]|].
    simpl. unfold update_catch.
    destruct (message e =? "User not found")%string;
      [do 2 eexists; split; [reflexivity | simpl; tauto]|].
    destruct (message e =? "User with this email already exists")%string;
      do 2 eexists; (split; [reflexivity | simpl; tauto]).
  - unfold run, deleteUserById, try_catch at 1, bind.
    destruct (params req) as [i|d];
      [|do 2 eexists; split; [reflexivity | simpl; tauto]].
    destruct (actor_id (user req) =? i);
      [do 2 eexists; split; [reflexivity|simpl; tauto]|].
    destruct (deleteUser i t) as [[o|e] t0];
      [do 2 eexists; split; [reflexivity | simpl; tauto]|].
    simpl. unfold delete_catch.
    destruct (message e =? "User not found")%string;
      do 2 eexists; (split; [reflexivity | simpl; tauto]).
Qed.

(** ** The unique emails across updates and deletions *)

Lemma NoDup_distinct (l : list string) : NoDup l -> distinct l = true.
Proof.
  induction 1 as [|x l Hnin N IH]; simpl; [reflexivity|].
  rewrite IH, andb_true_r. apply negb_true_iff.
  destruct (existsb (String.eqb x) l) eqn:E; [|reflexivity].
  apply existsb_exists in E. destruct E as [y [Hy Exy]].
  apply String.eqb_eq in Exy. subst y. contradiction.
Qed.

Lemma emails_unique_filter (w : UserRow -> bool) (t : Table) :
  emails_unique t = true -> emails_unique (filter w t) = true.
Proof.
  unfold emails_unique. intros H. apply distinct_NoDup in H.
  apply NoDup_distinct.
  induction t as [|r t IH]; simpl; [constructor|].
  simpl in H. inversion H as [|x l Hnin N]; subst.
  destruct (w r); simpl; [constructor|]; try (now apply IH).
  intros Hin. apply Hnin. apply in_map_iff in Hin.
  destruct Hin as [y [Ey Hy]]. apply filter_In in Hy.
  apply in_map_iff. exists y. tauto.
Qed.

Lemma ids_unique_filter (w : UserRow -> bool) (t : Table) :
  NoDup (map u_id t) -> NoDup (map u_id (filter w t)).
Proof.
  induction t as [|r t IH]; simpl; intros H; [constructor|].
  inversion H as [|x l Hnin N]; subst.
  destruct (w r); simpl; [constructor|]; try (now apply IH).
  intros Hin. apply Hnin. apply in_map_iff in Hin.
  destruct Hin as [y [Ey Hy]]. apply filter_In in Hy.
  apply in_map_iff. exists y. tauto.
Qed.

Lemma ids_kept (i : Z) (d : UpdateData) (t : Table) :
  map u_id (map (fun r => if eq_id i r then apply_set d r else r) t)
  = map u_id t.
Proof.
  rewrite map_map. apply map_ext. intros r.
  destruct (eq_id i r); reflexivity.
Qed.

Lemma emails_unique_after_update (i : Z) (d : UpdateData) (t : Table) :
  emails_unique t = true ->
  NoDup (map u_id t) ->
  (forall e r, set_email d = Some e -> In r t -> u_email r = e ->
               u_id r = i) ->
  emails_unique (map (fun r => if eq_id i r then apply_set d r else r) t)
  = true.
Proof.
  intros Hu Hid Hfree. unfold emails_unique in *.
  apply distinct_NoDup in Hu. apply NoDup_distinct.
  rewrite map_map.
  apply NoDup_map_NoDup_ForallPairs; [|now apply NoDup_map_inv in Hid].
  intros x y Hx Hy E.
  assert (Same : u_email x = u_email y -> x = y).
  { intros E'. now apply (NoDup_map_injective u_email t). }
  unfold eq_id in E.
  destruct (Z.eqb_spec (u_id x) i) as [Ix|Ix];
    destruct (Z.eqb_spec (u_id y) i) as [Iy|Iy].
  - apply (NoDup_map_injective u_id t); congruence.
  - simpl in E. destruct (set_email d) as [e|] eqn:Se; simpl in E.
    + exfalso. apply Iy. apply (Hfree e y eq_refl Hy). now symmetry.
    + now apply Same.
  - simpl in E. destruct (set_email d) as [e|] eqn:Se; simpl in E.
    + exfalso. apply Ix. now apply (Hfree e x eq_refl Hx).
    + now apply Same.
  - now apply Same.
Qed.

(** X10: on a table whose ids and emails are each distinct, [updateUser]
    on an existing id succeeds whenever the hasher accepts the password
    (if one is given) and the email (if one is given) belongs to no row of
    another id; in particular giving a user the email the user already
    has is accepted. *)
Theorem updateUser_succeeds_when_email_free (now : Date) (i : Z)
    (u : Updates) (t : Table) :
  emails_unique t = true ->
  NoDup (map u_id t) ->
  (exists r, In r t /\ u_id r = i) ->
  (forall p, upd_password u = Some p -> p <> "" ->
             exists h, hashPassword p = Ok h) ->
  (forall e r, upd_email u = Some e -> In r t -> u_email r = e ->
               u_id r = i) ->
  exists o t', run (updateUser now i u) t = (Ok (Some o), t').
Proof.
  intros Hu Hid Hex Hh Hfree.
  destruct (stored_password_ok u Hh) as [pw Hpw].
  destruct (filter_present i t Hex) as [r [F _]].
  rewrite updateUser_run, F, Hpw. cbv zeta.
  rewrite emails_unique_after_update by assumption.
  rewrite filter_updated, !first_map, F. simpl.
  do 2 eexists. reflexivity.
Qed.

(** X12: the service keeps the table well formed.  [updateUser], whether
    it returns or throws, leaves the list of ids as it was and a table of
    distinct emails a table of distinct emails; [deleteUser] only removes
    rows, so distinct ids and distinct emails stay distinct. *)
Theorem service_keeps_table_well_formed (t : Table) :
  (forall now i u out t',
     run (updateUser now i u) t = (out, t') ->
     map u_id t' = map u_id t
     /\ (emails_unique t = true -> emails_unique t' = true))
  /\ (forall i out t',
        run (deleteUser i) t = (out, t') ->
        incl t' t
        /\ (NoDup (map u_id t) -> NoDup (map u_id t'))
        /\ (emails_unique t = true -> emails_unique t' = true)).
Proof.
  split.
  - intros now i u [res|e] t' H.
    + destruct (updateUser_ok_shape now i u t t' res H)
        as [pw [_ [_ [U Ht]]]].
      split; [|intros _; exact U]. rewrite Ht. apply ids_kept.
    + apply updateUser_throws in H. destruct H as [Ht _]. subst t'.
      split; [reflexivity | tauto].
  - intros i out t' H. rewrite deleteUser_run in H.
    destruct (first (filter (eq_id i) t)).
    + injection H as _ Ht. subst t'. repeat split.
      * intros r Hr. apply filter_In in Hr. tauto.
      * apply ids_unique_filter.
      * apply emails_unique_filter.
    + injection H as _ Ht. subst t'. repeat split; try tauto.
      apply incl_refl.
Qed.

(** ** The same update twice *)

Lemma or_keep_twice {A : Type} (o : option A) (x : A) :
  or_keep o (or_keep o x) = or_keep o x.
Proof. destruct o; reflexivity. Qed.

(** X11: a sparse update without a password that has succeeded can be sent
    again: the second [updateUser] succeeds too and changes nothing but
    [updated_at], which becomes the time of the second call. *)
Theorem repeated_update_only_refreshes (now now' : Date) (i : Z)
    (u : Updates) (t t1 : Table) (res : option Obj) :
  upd_password u = None ->
  run (updateUser now i u) t = (Ok res, t1) ->
  exists r1,
    first (filter (eq_id i) t1) = Some r1
    /\ run (updateUser now' i u) t1
       = (Ok (Some (project public_fields (touch now' r1))),
          map (fun r => if u_id r =? i then touch now' r else r) t1).
Proof.
  intros Hpw H.
  destruct (updateUser_ok_shape now i u t t1 res H) as [pw [P [F [U Ht]]]].
  assert (Epw : pw = None).
  { unfold stored_password in P. rewrite Hpw in P. congruence. }
  subst pw. clear P.
  set (d := {| set_name := upd_name u; set_email := upd_email u;
               set_password := None; set_role := upd_role u;
               set_updated_at := Some now |}) in Ht.
  set (d' := {| set_name := upd_name u; set_email := upd_email u;
                set_password := None; set_role := upd_role u;
                set_updated_at := Some now' |}).
  assert (T : map (fun r => if eq_id i r then apply_set d' r else r) t1
              = map (fun r => if eq_id i r then touch now' r else r) t1).
  { rewrite Ht. rewrite !map_map. apply map_ext. intros r.
    destruct (eq_id i r) eqn:E; [|now rewrite E].
    replace (eq_id i (apply_set d r)) with true by (symmetry; exact E).
    unfold apply_set, touch, d, d'. simpl.
    now rewrite !or_keep_twice. }
  destruct (first (filter (eq_id i) t)) as [r0|] eqn:F0; [|contradiction].
  assert (F1 : first (filter (eq_id i) t1) = Some (apply_set d r0)).
  { rewrite Ht, filter_updated, first_map, F0. reflexivity. }
  exists (apply_set d r0). split; [exact F1|].
  rewrite updateUser_run, F1.
  assert (P' : stored_password u = Ok None)
    by (unfold stored_password; now rewrite Hpw).
  rewrite P'. cbv zeta. fold d'. rewrite T.
  assert (U' : emails_unique
                 (map (fun r => if eq_id i r then touch now' r else r) t1)
               = true).
  { unfold emails_unique.
    pose proof (emails_kept i {| set_name := None; set_email := None;
                                 set_password := None; set_role := None;
                                 set_updated_at := Some now' |} t1 eq_refl)
      as K.
    change (map u_email
              (map (fun r => if eq_id i r then touch now' r else r) t1)
            = map u_email t1) in K.
    rewrite K. exact U. }
  rewrite U'.
  pose proof (filter_updated i {| set_name := None; set_email := None;
                                  set_password := None; set_role := None;
                                  set_updated_at := Some now' |} t1) as FU.
  change (filter (eq_id i)
            (map (fun r => if eq_id i r then touch now' r else r) t1)
          = map (touch now') (filter (eq_id i) t1)) in FU.
  rewrite FU, !first_map, F1. reflexivity.
Qed.

(** ** What a request cannot do *)

Lemma Forall2_same {A : Type} (P : A -> A -> Prop) (l : list A) :
  (forall x, P x x) -> Forall2 P l l.
Proof.
  intros H. induction l; constructor; auto.
Qed.

Lemma role_valid_falsy (u : Updates) :
  role_valid u = true -> truthy (upd_role u) = false -> upd_role u = None.
Proof.
  unfold role_valid, truthy. destruct (upd_role u) as [r|]; [|reflexivity].
  intros H F. apply negb_false_iff in F. apply String.eqb_eq in F. subst r.
  discriminate.
Qed.

(** X13: an actor who is not an admin cannot reach beyond the own row
    through [updateUserById]: whatever the request and its outcome, every
    row of another id is as before and no row has changed its role (the
    role of a validated body being [user] or [admin]). *)
Theorem non_admin_update_is_confined (now : Date) (req : Request)
    (t t' : Table) (out : Result Outcome) :
  actor_role (user req) <> "admin" ->
  (forall u, body req = ParseSuccess u -> role_valid u = true) ->
  run (updateUserById now req) t = (out, t') ->
  Forall2 (fun r r' => u_role r' = u_role r
                       /\ (u_id r <> actor_id (user req) -> r' = r)) t t'.
Proof.
  intros Ha Hv H.
  assert (Same : Forall2 (fun r r' => u_role r' = u_role r
                            /\ (u_id r <> actor_id (user req) -> r' = r))
                   t t)
    by (apply Forall2_same; auto).
  apply not_admin_true in Ha.
  unfold run, updateUserById, try_catch at 1 in H.
  destruct (params req) as [i|d]; [|injection H as _ Ht; now subst t'].
  destruct (body req) as [u|d] eqn:Hb; [|injection H as _ Ht; now subst t'].
  rewrite Ha in H. simpl in H.
  destruct (Z.eqb_spec (actor_id (user req)) i) as [Hs|Hs]; simpl in H;
    [|injection H as _ Ht; now subst t'].
  rewrite andb_true_r in H.
  destruct (truthy (upd_role u)) eqn:Tr;
    [injection H as _ Ht; now subst t'|].
  pose proof (role_valid_falsy u (Hv u eq_refl) Tr) as Hr.
  unfold bind in H.
  destruct (updateUser now i u t) as [[res|e] t0] eqn:R.
  - injection H as _ Ht. subst t0.
    destruct (updateUser_ok_shape now i u t t' res R) as [pw [_ [_ [_ E]]]].
    rewrite E. apply Forall2_map_self. intros x. unfold eq_id.
    destruct (Z.eqb_spec (u_id x) i) as [Ix|Ix]; [|auto].
    split; [simpl; now rewrite Hr | intros N; congruence].
  - simpl in H. injection H as _ Ht. subst t0.
    apply updateUser_throws in R. destruct R as [R _]. now subst t'.
Qed.

(** X14: requests that are not answered 200 leave no trace.  The two
    reading handlers never change the table; [updateUserById] and
    [deleteUserById] change it only when they answer 200, so every
    validation error, refusal, 404 and exception handed to [next] comes
    with the table as it was. *)
Theorem failed_requests_change_nothing (now : Date) (req : Request)
    (t : Table) :
  snd (run (fetchAllUsers req) t) = t
  /\ snd (run (fetchUserById req) t) = t
  /\ (status (run (updateUserById now req) t) <> Some 200 ->
      snd (run (updateUserById now req) t) = t)
  /\ (status (run (deleteUserById req) t) <> Some 200 ->
      snd (run (deleteUserById req) t) = t).
Proof.
  repeat apply conj.
  - unfold run, fetchAllUsers, try_catch at 1, bind.
    destruct (not_admin _); [reflexivity|].
    pose proof (getAllUsers_run t) as R. unfold run in R. now rewrite R.
  - unfold run, fetchUserById, try_catch at 1, bind.
    destruct (params req) as [i|d]; [|reflexivity].
    destruct (_ && _); [reflexivity|].
    pose proof (getUserById_run i t) as R. unfold run in R. rewrite R.
    destruct (first (filter (eq_id i) t)); reflexivity.
  - unfold status, run, updateUserById, try_catch at 1 2, bind.
    destruct (params req) as [i|d]; [|reflexivity].
    destruct (body req) as [u|d]; [|reflexivity].
    destruct (_ && _); [reflexivity|].
    destruct (_ && _); [reflexivity|].
    destruct (updateUser now i u t) as [[res|e] t0] eqn:R.
    + simpl. intros N. now contradiction N.
    + intros _. simpl. apply updateUser_throws in R. tauto.
  - unfold status, run, deleteUserById, try_catch at 1 2, bind.
    destruct (params req) as [i|d]; [|reflexivity].
    destruct (actor_id (user req) =? i); [reflexivity|].
    pose proof (deleteUser_run i t) as R. unfold run in R. rewrite R.
    destruct (first (filter (eq_id i) t)).
    + simpl. intros N. now contradiction N.
    + reflexivity.
Qed.

End Service.

(** C2 (where the handler departs from the specification): Alice, an
    admin, gives Bob the email her own row already has.  [updateUser] checks no
    email, the store refuses the write, and the handler hands the driver's
    exception to [next] instead of answering 409; no row has changed. *)
Theorem update_to_taken_email_not_409 :
  run (updateUserById Sample.hash Sample.violation 999
         (Sample.request Sample.as_alice 2
            (Sample.take_email "alice@example.com")))
      Sample.table
  = (Ok (Next Sample.violation), Sample.table).
Proof.
  vm_compute. reflexivity.
Qed.

(** * The statements at the sample table *)

Lemma absent_id_not_found_witness :
  run (updateUser Sample.hash Sample.violation 999 9 (Sample.rename "X"))
      Sample.table
  = (Throw not_found, Sample.table)
  /\ run (deleteUserById (Sample.request Sample.as_alice 9 (Sample.rename "X")))
         Sample.table
     = (Ok (Respond 404 [("error", JStr "User not found")]), Sample.table).
Proof.
  assert (A : forall r, In r Sample.table -> u_id r <> 9).
  { intros r [E|[E|[E|[]]]]; subst r; discriminate. }
  pose proof (absent_id_not_found Sample.hash Sample.violation 999 9
                (Sample.rename "X") Sample.table
                (Sample.request Sample.as_alice 9 (Sample.rename "X"))
                A eq_refl eq_refl) as H.
  split.
  - exact (proj1 (proj1 H)).
  - apply (proj2 (proj2 (proj2 H))). discriminate.
Defined.

Lemma self_delete_rejected_witness :
  run (deleteUserById (Sample.request Sample.as_alice 1 no_updates))
      Sample.table
  = (Ok (Respond 400 [("error", JStr "Invalid operation");
                      ("message", JStr "You cannot delete your own account")]),
     Sample.table).
Proof.
  apply (self_delete_rejected
           (Sample.request Sample.as_alice 1 no_updates) 1 Sample.table);
    reflexivity.
Defined.

Lemma role_change_by_non_admin_rejected_witness :
  run (updateUserById Sample.hash Sample.violation 999
         (Sample.request Sample.as_eve 5 Sample.promote))
      Sample.table
  = (Ok (Respond 403
           [("error", JStr "Access denied");
            ("message", JStr "Only administrators can change user roles")]),
     Sample.table).
Proof.
  apply (role_change_by_non_admin_rejected Sample.hash Sample.violation 999
           (Sample.request Sample.as_eve 5 Sample.promote) 5 Sample.promote
           Sample.table); try reflexivity; discriminate.
Defined.

Lemma view_update_self_or_admin_witness :
  run (fetchUserById (Sample.request Sample.as_eve 2 no_updates))
      Sample.table
  = (Ok (access_denied "You can only view your own profile"), Sample.table)
  /\ status (run (updateUserById Sample.hash Sample.violation 999
                    (Sample.request Sample.as_eve 2 (Sample.rename "X")))
                 Sample.table)
     = Some 403.
Proof.
  pose proof (view_update_self_or_admin Sample.hash Sample.violation 999
                (Sample.request Sample.as_eve 2 no_updates) 2 no_updates
                Sample.table eq_refl eq_refl) as H.
  pose proof (view_update_self_or_admin Sample.hash Sample.violation 999
                (Sample.request Sample.as_eve 2 (Sample.rename "X")) 2
                (Sample.rename "X") Sample.table eq_refl eq_refl) as H'.
  assert (D : ~ (actor_id Sample.as_eve = 2
                 \/ actor_role Sample.as_eve = "admin")).
  { intros [E|E]; discriminate. }
  split.
  - exact (proj1 (proj2 H) D).
  - exact (proj1 (proj2 (proj2 (proj2 H'))) D).
Defined.


Lemma sparse_update_frame_witness :
  Forall2 (fun r r' =>
             if u_id r =? 2
             then sparse_applied Sample.hash 999 (Sample.rename "X") r r'
             else r' = r)
    Sample.table
    [Sample.alice;
     mkUserRow 2 "X" "bob@example.com" "$2b$10$b" "user" 200 999;
     Sample.eve].
Proof.
  apply (proj1 (sparse_update_frame Sample.hash Sample.violation 999 2
                  (Sample.rename "X") Sample.table
                  [Sample.alice;
                   mkUserRow 2 "X" "bob@example.com" "$2b$10$b" "user"
                     200 999;
                   Sample.eve]
                  (Some (project public_fields
                           (mkUserRow 2 "X" "bob@example.com" "$2b$10$b"
                              "user" 200 999)))
                  eq_refl)).
Defined.

Lemma empty_update_refreshes_timestamp_witness :
  exists r,
    In r Sample.table /\ u_id r = 2
    /\ run (updateUser Sample.hash Sample.violation 999 2 no_updates)
           Sample.table
       = (Ok (Some (project public_fields (touch 999 r))),
          map (fun r => if u_id r =? 2 then touch 999 r else r) Sample.table)
    /\ get "updated_at" (project public_fields (touch 999 r))
       = Some (VDate 999).
Proof.
  apply (empty_update_refreshes_timestamp Sample.hash Sample.violation
           999 2 Sample.table).
  - reflexivity.
  - exists Sample.bob. split; [right; left; reflexivity | reflexivity].
Defined.

Lemma password_projected_out_witness :
  keys (project public_fields Sample.bob) = public_keys
  /\ get "password" (project public_fields Sample.bob) = None.
Proof.
  apply (proj1 (proj2 (proj2
           (password_projected_out Sample.hash Sample.violation)))
           2 Sample.table (project public_fields Sample.bob) Sample.table
           eq_refl).
Defined.

(** * The further properties at the sample table *)

Lemma fetchAllUsers_admin_only_witness :
  (exists us,
     run (fetchAllUsers (Sample.request Sample.as_alice 1 no_updates))
         Sample.table
     = (Ok (Respond 200 [("message", JStr "Users retrieved successfully");
                         ("users", JArr us)]), Sample.table)
     /\ Permutation us (map (project public_fields) Sample.table))
  /\ run (fetchAllUsers (Sample.request Sample.as_eve 1 no_updates))
         Sample.table
     = (Ok (Respond 403
              [("error", JStr "Access denied");
               ("message", JStr "Only administrators can view all users")]),
        Sample.table).
Proof.
  split.
  - apply (proj1 (fetchAllUsers_admin_only
                    (Sample.request Sample.as_alice 1 no_updates)
                    Sample.table)).
    reflexivity.
  - apply (proj2 (fetchAllUsers_admin_only
                    (Sample.request Sample.as_eve 1 no_updates)
                    Sample.table)).
    discriminate.
Defined.

Lemma fetchUserById_found_or_404_witness :
  exists r,
    first (filter (eq_id 5) Sample.table) = Some r
    /\ In r Sample.table
    /\ get "id" (project public_fields r) = Some (VNum 5)
    /\ run (fetchUserById (Sample.request Sample.as_eve 5 no_updates))
           Sample.table
       = (Ok (Respond 200
                [("message", JStr "User retrieved successfully");
                 ("user", JObj (project public_fields r))]), Sample.table).
Proof.
  apply (proj1 (proj2 (fetchUserById_found_or_404
                         (Sample.request Sample.as_eve 5 no_updates) 5
                         Sample.table eq_refl (or_introl eq_refl)))).
  exists Sample.eve. split; [right; right; left; reflexivity | reflexivity].
Defined.

Lemma deleteUserById_removes_rows_witness :
  run (deleteUserById (Sample.request Sample.as_alice 2 no_updates))
      Sample.table
  = (Ok (Respond 200 [("message", JStr "User deleted successfully")]),
     filter (fun r => negb (u_id r =? 2)) Sample.table).
Proof.
  apply (deleteUserById_removes_rows
           (Sample.request Sample.as_alice 2 no_updates) 2 Sample.table).
  - reflexivity.
  - discriminate.
  - exists Sample.bob. split; [right; left; reflexivity | reflexivity].
Defined.

Lemma deleteUser_then_lookup_witness :
  run (getUserById 2) [Sample.alice; Sample.eve]
  = (Throw not_found, [Sample.alice; Sample.eve])
  /\ run (getUserById 5) [Sample.alice; Sample.eve]
     = (fst (run (getUserById 5) Sample.table), [Sample.alice; Sample.eve]).
Proof.
  pose proof (deleteUser_then_lookup Sample.hash Sample.violation 999 2
                (Sample.rename "X") Sample.table
                [Sample.alice; Sample.eve]
                [("message", JStr "User deleted successfully")] eq_refl)
    as H.
  split.
  - exact (proj1 H).
  - apply (proj2 (proj2 (proj2 H))). discriminate.
Defined.

Lemma updateUser_keeps_other_lookups_witness :
  run (getUserById 5)
      [Sample.alice;
       mkUserRow 2 "X" "bob@example.com" "$2b$10$b" "user" 200 999;
       Sample.eve]
  = (fst (run (getUserById 5) Sample.table),
     [Sample.alice;
      mkUserRow 2 "X" "bob@example.com" "$2b$10$b" "user" 200 999;
      Sample.eve]).
Proof.
  apply (updateUser_keeps_other_lookups Sample.hash Sample.violation 999 2 5
           (Sample.rename "X") Sample.table
           [Sample.alice;
            mkUserRow 2 "X" "bob@example.com" "$2b$10$b" "user" 200 999;
            Sample.eve]
           (Some (project public_fields
                    (mkUserRow 2 "X" "bob@example.com" "$2b$10$b" "user"
                       200 999)))).
  - reflexivity.
  - discriminate.
Defined.

Lemma validation_failure_is_400_witness :
  run (deleteUserById (Faulty.bad_id Sample.as_eve "ID must be a number"))
      Sample.table
  = (Ok (Respond 400 [("error", JStr "Validation failed");
                      ("details", JStr "ID must be a number")]),
     Sample.table).
Proof.
  apply (proj1 (validation_failure_is_400 Sample.hash Sample.violation 999
                  (Faulty.bad_id Sample.as_eve "ID must be a number")
                  Sample.table "ID must be a number")).
  reflexivity.
Defined.

Lemma hash_failure_persists_nothing_witness :
  run (updateUser Faulty.hash Sample.violation 999 2
         (Faulty.new_password "s3cret"))
      Sample.table
  = (Throw (mkError "Error hashing"), Sample.table)
  /\ run (updateUserById Faulty.hash Sample.violation 999
            (Sample.request Sample.as_alice 2 (Faulty.new_password "s3cret")))
         Sample.table
     = (Ok (update_catch (mkError "Error hashing")), Sample.table).
Proof.
  apply (hash_failure_persists_nothing Faulty.hash Sample.violation 999
           (Sample.request Sample.as_alice 2 (Faulty.new_password "s3cret"))
           2 (Faulty.new_password "s3cret") "s3cret"
           (mkError "Error hashing") Sample.table).
  - reflexivity.
  - reflexivity.
  - left. reflexivity.
  - reflexivity.
  - discriminate.
  - reflexivity.
  - exists Sample.bob. split; [right; left; reflexivity | reflexivity].
Defined.

Lemma email_conflict_goes_to_next_witness :
  run (updateUserById Sample.hash Sample.violation 999
         (Sample.request Sample.as_eve 5
            (Sample.take_email "bob@example.com")))
      Sample.table
  = (Ok (Next Sample.violation), Sample.table).
Proof.
  assert (H1 : forall p, upd_password (Sample.take_email "bob@example.com")
                         = Some p ->
                         p <> "" -> exists h, Sample.hash p = Ok h)
    by (intros p Hp; discriminate Hp).
  assert (H2 : exists r, In r Sample.table /\ u_id r = 5).
  { exists Sample.eve. split; [right; right; left; reflexivity|reflexivity]. }
  assert (H3 : exists r', In r' Sample.table /\ u_id r' <> 5
                          /\ u_email r' = "bob@example.com").
  { exists Sample.bob. split; [right; left; reflexivity|].
    split; [discriminate | reflexivity]. }
  assert (H4 : message Sample.violation <> "User not found")
    by discriminate.
  assert (H5 : message Sample.violation
               <> "User with this email already exists") by discriminate.
  exact (proj1 (proj2 (email_conflict_goes_to_next
                         Sample.hash Sample.violation 999
                         (Sample.request Sample.as_eve 5
                            (Sample.take_email "bob@example.com"))
                         5 (Sample.take_email "bob@example.com")
                         "bob@example.com" Sample.table
                         eq_refl eq_refl
                         (or_intror (conj eq_refl eq_refl)) eq_refl
                         H1 H2 H3 H4 H5))).
Defined.

Lemma updateUser_succeeds_when_email_free_witness :
  exists o t',
    run (updateUser Sample.hash Sample.violation 999 2
           (Sample.take_email "bob@example.com"))
        Sample.table
    = (Ok (Some o), t').
Proof.
  apply (updateUser_succeeds_when_email_free Sample.hash Sample.violation
           999 2 (Sample.take_email "bob@example.com") Sample.table).
  - reflexivity.
  - repeat constructor; simpl; intuition discriminate.
  - exists Sample.bob. split; [right; left; reflexivity | reflexivity].
  - intros p Hp. discriminate Hp.
  - intros e r He Hin Hm. injection He as He. subst e.
    destruct Hin as [E|[E|[E|[]]]]; subst r;
      [discriminate Hm | reflexivity | discriminate Hm].
Defined.

Lemma service_keeps_table_well_formed_witness :
  emails_unique [Sample.alice; Sample.eve] = true
  /\ map u_id [Sample.alice;
              mkUserRow 2 "X" "bob@example.com" "$2b$10$b" "user" 200 999;
              Sample.eve]
     = map u_id Sample.table.
Proof.
  pose proof (service_keeps_table_well_formed Sample.hash Sample.violation
                Sample.table) as H.
  split.
  - apply (proj2 (proj2 (proj2 H 2
                           (Ok [("message",
                                 JStr "User deleted successfully")])
                           [Sample.alice; Sample.eve] eq_refl))).
    reflexivity.
  - apply (proj1 (proj1 H 999 2 (Sample.rename "X")
                    (Ok (Some (project public_fields
                                 (mkUserRow 2 "X" "bob@example.com"
                                    "$2b$10$b" "user" 200 999))))
                    [Sample.alice;
                     mkUserRow 2 "X" "bob@example.com" "$2b$10$b" "user"
                       200 999;
                     Sample.eve] eq_refl)).
Defined.

Lemma repeated_update_only_refreshes_witness :
  exists r1,
    first (filter (eq_id 2)
             [Sample.alice;
              mkUserRow 2 "X" "bob@example.com" "$2b$10$b" "user" 200 999;
              Sample.eve]) = Some r1
    /\ run (updateUser Sample.hash Sample.violation 1000 2
              (Sample.rename "X"))
           [Sample.alice;
            mkUserRow 2 "X" "bob@example.com" "$2b$10$b" "user" 200 999;
            Sample.eve]
       = (Ok (Some (project public_fields (touch 1000 r1))),
          map (fun r => if u_id r =? 2 then touch 1000 r else r)
            [Sample.alice;
             mkUserRow 2 "X" "bob@example.com" "$2b$10$b" "user" 200 999;
             Sample.eve]).
Proof.
  apply (repeated_update_only_refreshes Sample.hash Sample.violation
           999 1000 2 (Sample.rename "X") Sample.table
           [Sample.alice;
            mkUserRow 2 "X" "bob@example.com" "$2b$10$b" "user" 200 999;
            Sample.eve]
           (Some (project public_fields
                    (mkUserRow 2 "X" "bob@example.com" "$2b$10$b" "user"
                       200 999))));
    reflexivity.
Defined.

Lemma non_admin_update_is_confined_witness :
  Forall2 (fun r r' => u_role r' = u_role r
                       /\ (u_id r <> actor_id Sample.as_eve -> r' = r))
    Sample.table
    [Sample.alice; Sample.bob;
     mkUserRow 5 "Eva" "eve@example.com" "$2b$10$e" "user" 300 999].
Proof.
  apply (non_admin_update_is_confined Sample.hash Sample.violation 999
           (Sample.request Sample.as_eve 5 (Sample.rename "Eva"))
           Sample.table
           [Sample.alice; Sample.bob;
            mkUserRow 5 "Eva" "eve@example.com" "$2b$10$e" "user" 300 999]
           (Ok (Respond 200
                  [("message", JStr "User updated successfully");
                   ("user",
                    JObj (project public_fields
                            (mkUserRow 5 "Eva" "eve@example.com" "$2b$10$e"
                               "user" 300 999)))]))).
  - discriminate.
  - intros u E. injection E as E. subst u. reflexivity.
  - reflexivity.
Defined.

Lemma failed_requests_change_nothing_witness :
  snd (run (updateUserById Sample.hash Sample.violation 999
              (Sample.request Sample.as_eve 2 (Sample.rename "X")))
           Sample.table)
  = Sample.table.
Proof.
  apply (proj1 (proj2 (proj2 (failed_requests_change_nothing
                                Sample.hash Sample.violation 999
                                (Sample.request Sample.as_eve 2
                                   (Sample.rename "X"))
                                Sample.table)))).
  discriminate.
Defined.
